(** * Adaptive scraper agent: a shallow embedding of [agent.py]

    The development follows the source file function by function:
    [fetch_webpage], [extract_products], [ask_ai_to_fix], [run_agent] and
    the statements of the script, [main].

    - Python statements that print, call a collaborator or may raise are
      written in a small state-and-exception monad [M].
    - The state carries the external world (network, model service), the
      store of dictionary objects (so that aliasing of the selector
      dictionaries is visible) and the chronological trace of what the
      run did: every [print] and every entry into one of the three
      functions the agent loop calls.
    - The libraries the source imports ([requests], [bs4], [anthropic],
      [json]) are not part of the repository; the agent is written over
      the interface [Libraries], and the theorems hold for every
      instance of it. *)

From Stdlib Require Import ZArith Ascii String DecimalString List Lia.
From stdpp Require Import base option list gmap strings.

Local Open Scope Z_scope.

(** ** Python strings

    A text is held as the bytes of its UTF-8 encoding.  A Python [str]
    is a sequence of characters (code points): where the source counts
    or classifies characters ([s[:n]], [strip()]) the bytes are grouped
    into characters first. *)

Module PyStr.

(** The characters the source spells with an escape or that a Rocq
    literal cannot hold. *)
Definition nl : string := String "010"%char EmptyString.
Definition dq : string := String "034"%char EmptyString.

(** [sep.join(parts)] *)
Fixpoint join (sep : string) (parts : list string) : string :=
  match parts with
  | [] => EmptyString
  | [p] => p
  | p :: rest => p +:+ sep +:+ join sep rest
  end.

(** [c * n] for a one-character string [c] *)
Fixpoint repeat (c : string) (n : nat) : string :=
  match n with
  | O => EmptyString
  | S n' => c +:+ repeat c n'
  end.

(** [s.startswith(p)] *)
Fixpoint startswith (p s : string) : bool :=
  match p, s with
  | EmptyString, _ => true
  | String a p', String b s' => if Ascii.eqb a b then startswith p' s' else false
  | String _ _, EmptyString => false
  end.

(** [p in s] *)
Fixpoint contains (p s : string) : bool :=
  startswith p s ||
  match s with
  | EmptyString => false
  | String _ s' => contains p s'
  end.

(** A continuation byte of UTF-8, [10xxxxxx]: it belongs to the
    character that the nearest byte before it that is not one begins. *)
Definition is_continuation (a : ascii) : bool :=
  let n := N_of_ascii a in ((128 <=? n) && (n <=? 191))%N.

(** The characters of a text, in order: each is a byte together with
    the continuation bytes that follow it. *)
Definition continues (s : string) : bool :=
  match s with
  | String b _ => is_continuation b
  | EmptyString => false
  end.

Fixpoint characters (s : string) : list string :=
  match s with
  | EmptyString => []
  | String a s' =>
      match characters s' with
      | c :: cs =>
          if continues s' then String a c :: cs
          else String a EmptyString :: c :: cs
      | [] => [String a EmptyString]
      end
  end.

(** [''.join(parts)] *)
Fixpoint concat (parts : list string) : string :=
  match parts with
  | [] => EmptyString
  | p :: rest => p +:+ concat rest
  end.

(** [len(s)] *)
Definition len (s : string) : nat := length (characters s).

(** [s[:n]] for [n >= 0]: the first [n] characters. *)
Definition take (n : nat) (s : string) : string :=
  concat (firstn n (characters s)).

(** [s.split("\n")]: the pieces between line feeds, always at least one. *)
Fixpoint split_lines_go (cur : string) (s : string) : list string :=
  match s with
  | EmptyString => [String.rev cur]
  | String a s' =>
      if Ascii.eqb a "010"%char
      then String.rev cur :: split_lines_go EmptyString s'
      else split_lines_go (String a cur) s'
  end.
Definition split_lines (s : string) : list string :=
  split_lines_go EmptyString s.

(** [c.isspace()] for a character [c]: the 29 characters of Unicode
    that Python takes for whitespace, by their encodings.  They are
    U+0009 to U+000D, U+001C to U+0020, U+0085, U+00A0, U+1680, U+2000
    to U+200A, U+2028, U+2029, U+202F, U+205F and U+3000. *)
Definition isspace (c : string) : bool :=
  match N_of_ascii <$> list_ascii_of_string c with
  | [n] => ((9 <=? n) && (n <=? 13)) || ((28 <=? n) && (n <=? 32))
  | [194; n] => (n =? 133) || (n =? 160)
  | [225; 154; 128] => true
  | [226; 128; n] =>
      ((128 <=? n) && (n <=? 138)) || (n =? 168) || (n =? 169) || (n =? 175)
  | [226; 129; 159] => true
  | [227; 128; 128] => true
  | _ => false
  end%N.

(** Dropping the whitespace characters a sequence of characters begins
    with. *)
Fixpoint lstrip (cs : list string) : list string :=
  match cs with
  | c :: cs' => if isspace c then lstrip cs' else cs
  | [] => []
  end.

(** [s.strip()]: the text without the whitespace characters at its two
    ends. *)
Definition strip (s : string) : string :=
  concat (rev (lstrip (rev (lstrip (characters s))))).

(** [str(n)] for an [int] *)
Definition of_Z (z : Z) : string := NilZero.string_of_int (Z.to_int z).
Definition of_nat (n : nat) : string := of_Z (Z.of_nat n).

(** [str(x)] for a value that is [None] or a [str] *)
Definition of_option (o : option string) : string :=
  match o with
  | Some s => s
  | None => "None"
  end.

End PyStr.

(** ** Values, exceptions, products *)

(** What [json.loads] can return.  Numbers keep their literal: the agent
    never computes with them. *)
#[warnings="-register-all"] Inductive json : Type :=
| JNull
| JBool (b : bool)
| JNumber (literal : string)
| JString (s : string)
| JArray (items : list json)
| JObject (members : list (string * json)).

(** A Python exception: its class name and [str(e)].  [Exception] is
    an instance of a class under [Exception], which is what the
    [except Exception] clauses of the source catch; [BaseException] is
    an instance of a class outside it ([KeyboardInterrupt],
    [SystemExit], [GeneratorExit] and the like), which they let
    through. *)
Inductive exn : Type :=
| Exception (exn_type exn_str : string)
| BaseException (exn_type exn_str : string).

Definition exn_type (e : exn) : string :=
  match e with Exception t _ | BaseException t _ => t end.

(** [str(e)] *)
Definition exn_str (e : exn) : string :=
  match e with Exception _ m | BaseException _ m => m end.

(** [isinstance(e, Exception)] *)
Definition is_Exception (e : exn) : bool :=
  match e with Exception _ _ => true | BaseException _ _ => false end.

(** [class Product] *)
Record Product : Type := mkProduct { name : string; price : string }.

(** [Product.__str__] *)
Definition Product_str (self : Product) : string :=
  name self +:+ " - " +:+ price self.

(** A [dict] with string keys, as the selector mappings are.  Dictionary
    objects live in a store; a reference is the index of the object.
    Nothing in the source deletes an object. *)
Abbreviation dict := (gmap string json).
Abbreviation ref := nat (only parsing).

(** [json.loads] keeps the last value of a repeated key. *)
Definition dict_of_members (members : list (string * json)) : dict :=
  foldl (fun d kv => <[kv.1 := kv.2]> d) ∅ members.

(** ** The trace of a run *)

Inductive event : Type :=
| Print (line : string)
| Call_fetch_webpage (url : string)
| Call_extract_products (html : string) (container_selector name_selector price_selector : json)
| Call_ask_ai_to_fix (html_snippet : string) (current_selectors : ref) (error_message : option string).

Definition is_fetch (e : event) : bool :=
  match e with Call_fetch_webpage _ => true | _ => false end.
Definition is_extract (e : event) : bool :=
  match e with Call_extract_products _ _ _ _ => true | _ => false end.
Definition is_oracle (e : event) : bool :=
  match e with Call_ask_ai_to_fix _ _ _ => true | _ => false end.

Definition count (p : event -> bool) (t : list event) : nat :=
  length (filter (fun e => p e = true) t).

Definition fetch_calls : list event -> nat := count is_fetch.
Definition extractor_calls : list event -> nat := count is_extract.
Definition oracle_calls : list event -> nat := count is_oracle.

(** The lines written to the console, in order. *)
Definition console (t : list event) : list string :=
  omap (fun e => match e with Print l => Some l | _ => None end) t.

(** The line was written to the console. *)
Definition printed (line : string) (t : list event) : bool :=
  bool_decide (line ∈ console t).

(** ** Outcomes and the monad *)

Inductive outcome (A : Type) : Type :=
| Ok (a : A)
| Raise (e : exn).
Arguments Ok {A} a.
Arguments Raise {A} e.

Definition raised {A} (o : outcome A) : bool :=
  match o with Raise _ => true | Ok _ => false end.

(** ** The agent *)

(** The libraries the source imports, as an interface.  [World] is
    whatever state the network and the model service have; a call may
    change it and may raise.  [Tag] is an element of a parsed document.
    - [requests_get url]: [requests.get(url, headers=headers,
      timeout=10).text] with the fixed headers of [fetch_webpage];
    - [anthropic_new]: the constructor [anthropic.Anthropic()];
    - [messages_create model max_tokens content]:
      [client.messages.create(...)] with one user message, followed by
      [.content[0].text];
    - [soup_select html sel]: [BeautifulSoup(html, "html.parser")
      .select(sel)], the matches in document order;
    - [select_one tag sel]: [tag.select_one(sel)];
    - [get_text_strip tag]: [tag.get_text(strip=True)];
    - [json_loads]: [json.loads];
    - [subscript_error v]: the exception Python raises for [v[key]]
      when [v] is not a dictionary;
    - [py_str v]: [str(v)] for a value that is not a string. *)
Class Libraries (World Tag : Type) : Type := {
  requests_get : string -> World -> World * outcome string;
  anthropic_new : World -> World * outcome unit;
  messages_create : string -> Z -> string -> World -> World * outcome string;
  soup_select : string -> json -> outcome (list Tag);
  select_one : Tag -> json -> outcome (option Tag);
  get_text_strip : Tag -> string;
  json_loads : string -> outcome json;
  subscript_error : json -> exn;
  py_str : json -> string
}.

Section Agent.

Context {World Tag : Type} {libs : Libraries World Tag}.

Record state : Type := mkState {
  world : World;
  heap : list dict;
  trace : list event
}.

Definition M (A : Type) : Type := state -> state * outcome A.

#[global] Instance M_ret : MRet M := fun A a s => (s, Ok a).
#[global] Instance M_bind : MBind M := fun A B f m s =>
  match m s with
  | (s', Ok a) => f a s'
  | (s', Raise e) => (s', Raise e)
  end.

Definition raise {A} (e : exn) : M A := fun s => (s, Raise e).

(** [try: body  except Exception as e: handler e]: an exception of a
    class outside [Exception] is not caught. *)
Definition try_except {A} (body : M A) (handler : exn -> M A) : M A := fun s =>
  match body s with
  | (s', Raise e) => if is_Exception e then handler e s' else (s', Raise e)
  | r => r
  end.

Definition lift {A} (o : outcome A) : M A := fun s => (s, o).

Definition emit (e : event) : M unit := fun s =>
  (mkState (world s) (heap s) (trace s ++ [e]), Ok tt).

Definition print (line : string) : M unit := emit (Print line).

(** A call to a collaborator that may change the world. *)
Definition external {A} (f : World -> World * outcome A) : M A := fun s =>
  let (w, o) := f (world s) in (mkState w (heap s) (trace s), o).

(** *** Dictionary objects *)

(** A new object; its reference is the next free index. *)
Definition new_dict (d : dict) : M ref := fun s =>
  (mkState (world s) (heap s ++ [d]) (trace s), Ok (length (heap s))).

(** A reference to no object.  Python has none; the agent only follows
    the reference it is given and those it made itself. *)
Definition dangling : exn := Exception "SystemError" "dangling reference".

Definition deref (r : ref) : M dict := fun s =>
  match heap s !! r with
  | Some d => (s, Ok d)
  | None => (s, Raise dangling)
  end.

(** [r.copy()]: a new object with the same items. *)
Definition dict_copy (r : ref) : M ref :=
  d ← deref r; new_dict d.

(** The [KeyError] for a missing [key]; its text is [repr(key)]. *)
Definition key_error (key : string) : exn :=
  Exception "KeyError" ("'" +:+ key +:+ "'").

(** [r[key]] *)
Definition getitem (r : ref) (key : string) : M json :=
  d ← deref r;
  match d !! key with
  | Some v => mret v
  | None => raise (key_error key)
  end.

(** [f"{v}"] *)
Definition format (v : json) : string :=
  match v with
  | JString s => s
  | _ => py_str v
  end.

(** *** [fetch_webpage] *)

Definition fetch_webpage (url : string) : M string :=
  emit (Call_fetch_webpage url);;
  print ("Fetching: " +:+ url);;
  external (requests_get url).

(** *** [extract_products] *)

(** Truth value of a value that is [None] or a [str]. *)
Definition truthy (o : option string) : bool :=
  match o with
  | Some (String _ _) => true
  | _ => false
  end.

(** The body of [for container in containers], with [products] the
    list built so far. *)
Fixpoint for_container (containers : list Tag) (name_selector price_selector : json)
    (products : list Product) : outcome (list Product) :=
  match containers with
  | [] => Ok products
  | container :: rest =>
      match select_one container name_selector with
      | Raise e => Raise e
      | Ok name_elem =>
          let name := get_text_strip <$> name_elem in
          match select_one container price_selector with
          | Raise e => Raise e
          | Ok price_elem =>
              let price := get_text_strip <$> price_elem in
              let products :=
                match name, price with
                | Some n, Some p =>
                    if truthy name && truthy price
                    then products ++ [mkProduct n p]
                    else products
                | _, _ => products
                end in
              for_container rest name_selector price_selector products
          end
      end
  end.

Definition extract_products (html : string)
    (container_selector name_selector price_selector : json)
    : M (option (list Product) * option string) :=
  emit (Call_extract_products html container_selector name_selector price_selector);;
  print ("Looking for products with selector: " +:+ format container_selector);;
  containers ← lift (soup_select html container_selector);
  print ("Found " +:+ PyStr.of_nat (length containers) +:+ " containers");;
  if (length containers =? 0)%nat
  then mret (None, Some "No containers found with that selector")
  else
    products ← lift (for_container containers name_selector price_selector []);
    if (length products =? 0)%nat
    then mret (None, Some "Found containers but couldn't extract name/price")
    else mret (Some products, None).

(** *** [ask_ai_to_fix] *)

Definition model : string := "claude-sonnet-4-20250514".
Definition max_tokens : Z := 1000.

(** The f-string sent as the user message. *)
Definition prompt (container name price : json) (error_message : option string)
    (html_snippet : string) : string :=
  let dq := PyStr.dq in
  PyStr.join PyStr.nl
    [ "You are a web scraping expert. My scraper broke.";
      "";
      "CURRENT SELECTORS I TRIED:";
      "- Container: " +:+ format container;
      "- Name: " +:+ format name +:+ "  ";
      "- Price: " +:+ format price;
      "";
      "ERROR: " +:+ PyStr.of_option error_message;
      "";
      "HERE'S THE HTML (first 3000 characters):";
      "```html";
      PyStr.take 3000 html_snippet;
      "```";
      "";
      "Analyze the HTML and tell me the correct CSS selectors.";
      "";
      "RESPOND WITH ONLY THIS JSON (no other text):";
      "{";
      "    " +:+ dq +:+ "container" +:+ dq +:+ ": " +:+ dq
        +:+ "selector for each product container" +:+ dq +:+ ",";
      "    " +:+ dq +:+ "name" +:+ dq +:+ ": " +:+ dq
        +:+ "selector for product name" +:+ dq +:+ ",";
      "    " +:+ dq +:+ "price" +:+ dq +:+ ": " +:+ dq
        +:+ "selector for price" +:+ dq;
      "}";
      "" ].

(** Dropping the lines of a code fence around the answer. *)
Definition strip_fences (response_text : string) : string :=
  if PyStr.contains "```" response_text
  then PyStr.join PyStr.nl
         (filter (fun line => PyStr.startswith "```" line = false)
                 (PyStr.split_lines response_text))
  else response_text.

Definition ask_ai_to_fix (html_snippet : string) (current_selectors : ref)
    (error_message : option string) : M ref :=
  emit (Call_ask_ai_to_fix html_snippet current_selectors error_message);;
  print "Asking AI to analyze the problem...";;
  external anthropic_new;;
  container ← getitem current_selectors "container";
  name ← getitem current_selectors "name";
  price ← getitem current_selectors "price";
  text ← external (messages_create model max_tokens
                     (prompt container name price error_message html_snippet));
  let response_text := strip_fences (PyStr.strip text) in
  v ← lift (json_loads response_text);
  match v with
  | JObject members =>
      new_selectors ← new_dict (dict_of_members members);
      print "AI suggests:";;
      container ← getitem new_selectors "container";
      print ("   Container: " +:+ format container);;
      name ← getitem new_selectors "name";
      print ("   Name: " +:+ format name);;
      price ← getitem new_selectors "price";
      print ("   Price: " +:+ format price);;
      mret new_selectors
  | _ =>
      print "AI suggests:";;
      raise (subscript_error v)
  end.

(** *** [run_agent] *)

(** [range(start, stop)] *)
Definition py_range (start stop : Z) : list Z :=
  (fun i => start + Z.of_nat i) <$> seq 0 (Z.to_nat (stop - start)).

(** How one pass through the body of the [for] loop ends: with a
    [return], or by falling through to the next attempt with the
    variables the loop carries ([current_selectors] and [html]). *)
Inductive flow : Type :=
| Return (result : option (list Product))
| Next (current_selectors : ref) (html : option string).

(** The body of [for attempt in range(1, max_retries + 1)]; [inr] stands
    for the [return] inside the [except] clause. *)
Definition attempt_body (attempt : Z) (url : string) (max_retries : Z)
    (current_selectors : ref) (html : option string) : M flow :=
  print "";;
  print ("ATTEMPT " +:+ PyStr.of_Z attempt +:+ " of " +:+ PyStr.of_Z max_retries);;
  print (PyStr.repeat "-" 30);;
  fetched ← match html with
            | None =>
                try_except
                  (text ← fetch_webpage url; mret (inl text))
                  (fun e =>
                     print ("Couldn't fetch webpage: " +:+ exn_str e);;
                     mret (inr None))
            | Some text => mret (inl text)
            end;
  match fetched with
  | inr result => mret (Return result)
  | inl html =>
      container ← getitem current_selectors "container";
      name ← getitem current_selectors "name";
      price ← getitem current_selectors "price";
      '(products, error) ← extract_products html container name price;
      match products with
      | Some ((_ :: _) as found) =>
          print ("SUCCESS! Found " +:+ PyStr.of_nat (length found) +:+ " products!");;
          mret (Return products)
      | _ =>
          print ("Failed: " +:+ PyStr.of_option error);;
          current_selectors ←
            (if attempt <? max_retries
             then try_except
                    (new_selectors ← ask_ai_to_fix html current_selectors error;
                     print "Retrying with new selectors...";;
                     mret new_selectors)
                    (fun e =>
                       print ("AI couldn't help: " +:+ exn_str e);;
                       mret current_selectors)
             else mret current_selectors);
          mret (Next current_selectors (Some html))
      end
  end.

(** The loop over the attempts still to be made, followed by the
    statements after the loop. *)
Fixpoint for_attempt (attempts : list Z) (url : string) (max_retries : Z)
    (current_selectors : ref) (html : option string) : M (option (list Product)) :=
  match attempts with
  | [] =>
      print ("Agent gave up after " +:+ PyStr.of_Z max_retries +:+ " attempts");;
      mret None
  | attempt :: rest =>
      f ← attempt_body attempt url max_retries current_selectors html;
      match f with
      | Return result => mret result
      | Next current_selectors html =>
          for_attempt rest url max_retries current_selectors html
      end
  end.

Definition run_agent (url : string) (initial_selectors : ref) (max_retries : Z)
    : M (option (list Product)) :=
  print "";;
  print (PyStr.repeat "=" 50);;
  print "ADAPTIVE SCRAPER AGENT STARTING";;
  print (PyStr.repeat "=" 50);;
  current_selectors ← dict_copy initial_selectors;
  for_attempt (py_range 1 (max_retries + 1)) url max_retries current_selectors None.

(** [run_agent(url, initial_selectors)] with the default [max_retries=3] *)
Definition run_agent_default (url : string) (initial_selectors : ref)
    : M (option (list Product)) :=
  run_agent url initial_selectors 3.

(** *** Lines of text *)

(** The text holds no line feed. *)
Fixpoint is_line (s : string) : bool :=
  match s with
  | EmptyString => true
  | String a s' => negb (Ascii.eqb a "010"%char) && is_line s'
  end.

(** The opening and closing mark of a code fence. *)
Definition fence : string := "```".

(** The line is not one that [strip_fences] drops. *)
Definition kept (line : string) : Prop := PyStr.startswith fence line = false.

(** *** The script *)

Definition books_url : string := "https://books.toscrape.com/".

(** The [initial_selectors] literal of the script. *)
Definition books_selectors : dict :=
  <["container" := JString "article.product_pod"]>
    (<["name" := JString "h3 a"]> (<["price" := JString ".price_color"]> ∅)).

(** [for i, product in enumerate(products, i)] with the [print] of its
    body. *)
Fixpoint for_product (i : Z) (products : list Product) : M unit :=
  match products with
  | [] => mret tt
  | product :: rest =>
      print (PyStr.of_Z i +:+ ". " +:+ Product_str product);;
      for_product (i + 1) rest
  end.

(** The statements under [if __name__ == "__main__"]; [api_key] is what
    [os.environ.get("ANTHROPIC_API_KEY")] answers. *)
Definition main (api_key : option string) : M unit :=
  if negb (truthy api_key) then
    print "";;
    print "NO API KEY FOUND!";;
    print "";;
    print "To use this agent:";;
    print "1. Go to: https://console.anthropic.com/";;
    print "2. Sign up and create an API key";;
    print "3. In your terminal, run:";;
    print "";;
    print "   set ANTHROPIC_API_KEY=your-key-here";;
    print "";;
    print "4. Then run: python agent.py";;
    print ""
  else
    initial_selectors ← new_dict books_selectors;
    products ← run_agent_default books_url initial_selectors;
    match products with
    | Some ((_ :: _) as found) =>
        print "";;
        print "EXTRACTED PRODUCTS:";;
        print (PyStr.repeat "=" 50);;
        for_product 1 (take 10 found)
    | _ => mret tt
    end.

(** ** What the properties are stated with *)

(** The events a computation added to the trace, given the state before
    and the state after. *)
Definition events_since (s s' : state) : list event :=
  drop (length (trace s)) (trace s').

(** [s'] is [s] after the events [t]: the trace grew by [t] and every
    dictionary object of [s] is still there, unchanged. *)
Definition advances (s s' : state) (t : list event) : Prop :=
  trace s' = trace s ++ t ∧ heap s `prefix_of` heap s'.

(** The text [requests.get] answers with in world [w], if it answers. *)
Definition response (url : string) (w : World) : option string :=
  match (requests_get url w).2 with
  | Ok text => Some text
  | Raise _ => None
  end.

(** The document held in [html] once the fetch guarded by
    [if html is None] has run in state [s]. *)
Definition cached (url : string) (html : option string) (s : state) : option string :=
  match html with
  | Some text => Some text
  | None => response url (world s)
  end.

(** An Extractor or oracle invocation was given the document [doc]; with
    [doc = None] there is no such invocation. *)
Definition uses_document (doc : option string) (e : event) : Prop :=
  match e with
  | Call_extract_products html _ _ _ => doc = Some html
  | Call_ask_ai_to_fix html _ _ => doc = Some html
  | _ => True
  end.

(** An Extractor invocation was given the document [doc] and the rule
    with the three locators. *)
Definition uses_rule (doc : string) (container name price : json) (e : event) : Prop :=
  match e with
  | Call_extract_products html c n p =>
      html = doc ∧ c = container ∧ n = name ∧ p = price
  | _ => True
  end.

(** The text a locator resolves to within a container: [None] stands for
    "absent". *)
Definition text_of (container : Tag) (sel : json) : option string :=
  match select_one container sel with
  | Ok (Some elem) => Some (get_text_strip elem)
  | _ => None
  end.

(** Both fields of the container resolved to non-empty text. *)
Definition both_present (name_selector price_selector : json) (container : Tag) : bool :=
  truthy (text_of container name_selector) && truthy (text_of container price_selector).

(** The selector engine answers for both locators on the container (it
    does not raise). *)
Definition answers (name_selector price_selector : json) (container : Tag) : Prop :=
  raised (select_one container name_selector) = false ∧
  raised (select_one container price_selector) = false.

(** The record of a container, as the specification words it: one record
    for a container with both fields present, none otherwise. *)
Definition record_of (name_selector price_selector : json) (container : Tag)
    : option Product :=
  match text_of container name_selector, text_of container price_selector with
  | Some n, Some p =>
      if both_present name_selector price_selector container
      then Some (mkProduct n p) else None
  | _, _ => None
  end.

(** The records of the containers, in document order. *)
Definition records (name_selector price_selector : json) (containers : list Tag)
    : list Product :=
  omap (record_of name_selector price_selector) containers.

(** What [extract_products] returns, without the printing. *)
Definition extraction (html : string) (container_selector name_selector price_selector : json)
    : outcome (option (list Product) * option string) :=
  match soup_select html container_selector with
  | Raise e => Raise e
  | Ok containers =>
      if (length containers =? 0)%nat
      then Ok (None, Some "No containers found with that selector")
      else
        match for_container containers name_selector price_selector [] with
        | Raise e => Raise e
        | Ok products =>
            if (length products =? 0)%nat
            then Ok (None, Some "Found containers but couldn't extract name/price")
            else Ok (Some products, None)
        end
  end.

(** What [extract_products] prints. *)
Definition extract_lines (html : string) (container_selector : json) : list string :=
  ("Looking for products with selector: " +:+ format container_selector) ::
  match soup_select html container_selector with
  | Ok containers => ["Found " +:+ PyStr.of_nat (length containers) +:+ " containers"]
  | Raise _ => []
  end.

(** The selector mapping stored at [r] has the three keys. *)
Definition rule_at (r : ref) (container name price : json) (s : state) : Prop :=
  ∃ d : dict, heap s !! r = Some d ∧ d !! "container" = Some container ∧
              d !! "name" = Some name ∧ d !! "price" = Some price.

(** The selector mapping stored at [r] has the three keys, whatever
    their values. *)
Definition has_rule (r : ref) (s : state) : Prop :=
  exists container name price, rule_at r container name price s.

(** A bound on what a piece of the trace holds: at most [f] fetches, [x]
    Extractor invocations and [o] oracle invocations, all of them on the
    document [doc]. *)
Definition within (f x o : nat) (doc : option string) (t : list event) : Prop :=
  (fetch_calls t <= f)%nat ∧ (extractor_calls t <= x)%nat ∧
  (oracle_calls t <= o)%nat ∧ Forall (uses_document doc) t.

(** Weakest precondition of a computation. *)
Definition wp {A} (m : M A) (Q : outcome A -> state -> Prop) (s : state) : Prop :=
  Q (m s).2 (m s).1.

(** A computation that prints and may change the world and add
    dictionary objects, but enters none of the agent's functions. *)
Definition quiet {A} (m : M A) : Prop :=
  forall s, exists lines, advances s (m s).1 (Print <$> lines).

(** The first of the three keys that the mapping lacks, in the order the
    oracle adapter reads them. *)
Definition first_missing (d : dict) : option string :=
  if d !! "container" is None then Some "container"
  else if d !! "name" is None then Some "name"
  else if d !! "price" is None then Some "price"
  else None.

(** The lines the script prints for the products: the first ten,
    numbered from 1. *)
Definition product_lines (products : list Product) : list string :=
  imap (fun i product => PyStr.of_Z (Z.of_nat i + 1) +:+ ". " +:+ Product_str product)
       (take 10 products).

(** What the script prints after the run, given what the run returned. *)
Definition report (result : option (list Product)) : list string :=
  match result with
  | Some ((_ :: _) as found) =>
      [ ""; "EXTRACTED PRODUCTS:"; PyStr.repeat "=" 50 ] ++ product_lines found
  | _ => []
  end.

(** The state in which the oracle adapter parses the answer: the model
    service has left the world [w], nothing is stored yet, and the
    adapter has announced itself. *)
Definition asked (html : string) (r : ref) (e : option string) (w : World) (s : state)
    : state :=
  mkState w (heap s)
    (trace s ++ [Call_ask_ai_to_fix html r e; Print "Asking AI to analyze the problem..."]).


(** The function entries of a trace, in order, without what was
    printed. *)
Definition calls (t : list event) : list event :=
  omap (fun e => match e with Print _ => None | _ => Some e end) t.

(** In a sequence of function entries every oracle invocation comes
    right after an extraction of the same document that failed, and it
    is given the reason of that failure; [prev] is the entry before the
    sequence, if there is one. *)
Fixpoint repairs_follow_failures (prev : option event) (entries : list event) : Prop :=
  match entries with
  | [] => True
  | e :: rest =>
      match e with
      | Call_ask_ai_to_fix html _ error =>
          match prev with
          | Some (Call_extract_products doc c n p) =>
              doc = html ∧ extraction doc c n p = Ok (None, error)
          | _ => False
          end
      | _ => True
      end ∧ repairs_follow_failures (Some e) rest
  end.

(** The state in which the body of the loop, started in [s] at
    [attempt], enters the oracle adapter: it has printed the heading of
    the attempt, fetched the document [doc] unless [html] held it, and
    run the extraction under [c], [n], [p], which failed for
    [error]. *)
Definition before_repair (attempt : Z) (url : string) (max_retries : Z)
    (html : option string) (doc : string) (c n p : json) (error : option string)
    (s : state) : state :=
  mkState
    (if html is Some _ then world s else (requests_get url (world s)).1)
    (heap s)
    (trace s
       ++ (Print <$> [ ""; "ATTEMPT " +:+ PyStr.of_Z attempt +:+ " of "
                             +:+ PyStr.of_Z max_retries;
                       PyStr.repeat "-" 30 ])
       ++ (if html is Some _ then []
           else [ Call_fetch_webpage url; Print ("Fetching: " +:+ url) ])
       ++ Call_extract_products doc c n p :: (Print <$> extract_lines doc c)
       ++ [ Print ("Failed: " +:+ PyStr.of_option error) ]).

End Agent.

(** ** A fake environment

    A small concrete instance of the collaborators: a network that serves
    a fixed set of documents, a selector engine over a toy element tree,
    and a model service that replays scripted answers.  The closed
    examples and counterexamples below run the agent in it. *)

Module Fake.

#[warnings="-register-all"] Inductive tag : Type :=
| Tag (selector : string) (text : string) (children : list tag).

Definition tag_selector (t : tag) : string := let 'Tag s _ _ := t in s.
Definition tag_text (t : tag) : string := let 'Tag _ x _ := t in x.
Definition tag_children (t : tag) : list tag := let 'Tag _ _ c := t in c.

Definition product (n p : string) : tag :=
  Tag ".product" "" [Tag ".name" n []; Tag ".price" p []].

(** The documents, given by their parsed top-level elements. *)
Definition parse (html : string) : list tag :=
  if String.eqb html "<shop>" then
    [ product "Tea" "3.50";
      Tag ".product" "" [Tag ".name" "Unpriced" []];
      product "Mug" "7.00";
      Tag ".banner" "Sale" [] ]
  else if String.eqb html "<blank>" then
    [ product "" "1.00" ]
  else if String.eqb html "<unnamed>" then
    [ Tag ".product" "" [Tag ".price" "1.00" []];
      Tag ".product" "" [Tag ".price" "2.00" []] ]
  else if String.eqb html "<unpriced>" then
    [ Tag ".product" "" [Tag ".name" "Tea" []] ]
  else [].

Definition type_error : exn := Exception "TypeError" "selector must be a string".

Definition soup_select (html : string) (sel : json) : outcome (list tag) :=
  match sel with
  | JString s => Ok (filter (fun t => tag_selector t = s) (parse html))
  | _ => Raise type_error
  end.

Definition select_one (t : tag) (sel : json) : outcome (option tag) :=
  match sel with
  | JString s => Ok (head (filter (fun c => tag_selector c = s) (tag_children t)))
  | _ => Raise type_error
  end.

(** The scripted answers of the model service still to be given. *)
Abbreviation world := (list (outcome string)).

Definition requests_get (url : string) (w : world) : world * outcome string :=
  if String.eqb url "https://shop.test/" then (w, Ok "<shop>")
  else if String.eqb url "https://blank.test/" then (w, Ok "<blank>")
  else (w, Raise (Exception "ConnectionError" "unreachable")).

Definition anthropic_new (w : world) : world * outcome unit := (w, Ok tt).

Definition messages_create (_ : string) (_ : Z) (_ : string) (w : world)
    : world * outcome string :=
  match w with
  | answer :: rest => (rest, answer)
  | [] => ([], Raise (Exception "APIConnectionError" "Connection error."))
  end.

Definition good_selectors : list (string * json) :=
  [ ("container", JString ".product"); ("name", JString ".name");
    ("price", JString ".price") ].

(** The one JSON text the fake parser understands. *)
Definition good_answer : string :=
  let dq := PyStr.dq in
  "{" +:+ dq +:+ "container" +:+ dq +:+ ": " +:+ dq +:+ ".product" +:+ dq +:+ ", "
      +:+ dq +:+ "name" +:+ dq +:+ ": " +:+ dq +:+ ".name" +:+ dq +:+ ", "
      +:+ dq +:+ "price" +:+ dq +:+ ": " +:+ dq +:+ ".price" +:+ dq +:+ "}".

Definition json_loads (s : string) : outcome json :=
  if String.eqb s good_answer then Ok (JObject good_selectors)
  else if String.eqb s "[]" then Ok (JArray [])
  else Raise (Exception "JSONDecodeError" "Expecting value: line 1 column 1 (char 0)").

Definition subscript_error (_ : json) : exn :=
  Exception "TypeError" "list indices must be integers or slices, not str".

Definition py_str (_ : json) : string := "<value>".

#[global] Instance libraries : Libraries world tag := {
  requests_get := requests_get;
  anthropic_new := anthropic_new;
  messages_create := messages_create;
  soup_select := soup_select;
  select_one := select_one;
  get_text_strip := tag_text;
  json_loads := json_loads;
  subscript_error := subscript_error;
  py_str := py_str
}.

(** The same environment with a download that is interrupted from the
    keyboard. *)
Definition interrupt (_ : string) (w : world) : world * outcome string :=
  (w, Raise (BaseException "KeyboardInterrupt" "")).

Definition interrupted : Libraries world tag :=
  Build_Libraries world tag interrupt anthropic_new messages_create
    soup_select select_one tag_text json_loads subscript_error py_str.

(** The no-break space, U+00A0: whitespace outside ASCII. *)
Definition nbsp : string := String "194"%char (String "160"%char EmptyString).

(** A caller's selector dictionaries. *)
Definition selectors (container name price : string) : dict :=
  <["container" := JString container]>
    (<["name" := JString name]> (<["price" := JString price]> ∅)).

(** The state a run starts in: the script of the model service and the
    caller's dictionary as the only object, at reference 0. *)
Definition start (script : world) (d : dict) : state :=
  mkState script [d] [].

(** The same environment as a book shop: the address of the script is
    served, a locator that is not a string matches nothing instead of
    raising, and the parser also understands the empty object. *)
Definition books : list tag :=
  [ Tag "article.product_pod" ""
      [Tag "h3 a" "A Light in the Attic" []; Tag ".price_color" "51.77" []];
    Tag "article.product_pod" ""
      [Tag "h3 a" "Tipping the Velvet" []; Tag ".price_color" "53.74" []] ].

Definition bookshop_get (url : string) (w : world) : world * outcome string :=
  if String.eqb url "https://books.toscrape.com/" then (w, Ok "<books>")
  else requests_get url w.

Definition bookshop_select (html : string) (sel : json) : outcome (list tag) :=
  match sel with
  | JString s =>
      Ok (filter (fun t => tag_selector t = s)
                 (if String.eqb html "<books>" then books else parse html))
  | _ => Ok []
  end.

Definition bookshop_select_one (t : tag) (sel : json) : outcome (option tag) :=
  match sel with
  | JString s => Ok (head (filter (fun c => tag_selector c = s) (tag_children t)))
  | _ => Ok None
  end.

Definition bookshop_loads (s : string) : outcome json :=
  if String.eqb s "{}" then Ok (JObject []) else json_loads s.

Definition bookshop : Libraries world tag :=
  Build_Libraries world tag bookshop_get anthropic_new messages_create
    bookshop_select bookshop_select_one tag_text bookshop_loads subscript_error py_str.

End Fake.

(** * Properties *)

(** ** Counting events *)

Lemma count_nil p : count p [] = 0%nat.
Proof. reflexivity. Qed.

Lemma count_app p (t1 t2 : list event) : count p (t1 ++ t2) = (count p t1 + count p t2)%nat.
Proof. unfold count. rewrite filter_app. apply length_app. Qed.

Lemma count_cons p e (t : list event) :
  count p (e :: t) = ((if p e then 1 else 0) + count p t)%nat.
Proof.
  unfold count. destruct (p e) eqn:E.
  - rewrite filter_cons_True by done. reflexivity.
  - rewrite filter_cons_False by (rewrite E; discriminate). reflexivity.
Qed.

Lemma count_prints p (lines : list string) :
  p (Print "") = false -> (forall l, p (Print l) = p (Print "")) ->
  count p (Print <$> lines) = 0%nat.
Proof.
  intros H0 Hp. induction lines as [|l lines IH]; [reflexivity|].
  rewrite fmap_cons, count_cons, Hp, H0, IH. reflexivity.
Qed.

Lemma count_fetch_prints lines : count is_fetch (Print <$> lines) = 0%nat.
Proof. by apply count_prints. Qed.
Lemma count_extract_prints lines : count is_extract (Print <$> lines) = 0%nat.
Proof. by apply count_prints. Qed.
Lemma count_oracle_prints lines : count is_oracle (Print <$> lines) = 0%nat.
Proof. by apply count_prints. Qed.

Lemma uses_document_prints doc lines : Forall (uses_document doc) (Print <$> lines).
Proof. induction lines; constructor; done. Qed.

Lemma last_console_snoc (t : list event) line :
  last (console (t ++ [Print line])) = Some line.
Proof. unfold console. rewrite omap_app. cbn. apply last_snoc. Qed.

Lemma uses_rule_prints doc c n p lines : Forall (uses_rule doc c n p) (Print <$> lines).
Proof. induction lines; constructor; done. Qed.

Lemma console_app (t1 t2 : list event) : console (t1 ++ t2) = console t1 ++ console t2.
Proof. apply omap_app. Qed.

Lemma console_prints lines : console (Print <$> lines) = lines.
Proof.
  induction lines as [|l lines IH]; [done|].
  change (l :: console (Print <$> lines) = l :: lines). by f_equal.
Qed.

Ltac count_simpl :=
  unfold within, fetch_calls, extractor_calls, oracle_calls;
  rewrite ?count_app, ?count_cons, ?count_nil, ?count_fetch_prints,
    ?count_extract_prints, ?count_oracle_prints;
  cbn [is_fetch is_extract is_oracle].

Ltac uses_document_steps :=
  repeat first
    [ apply Forall_nil_2
    | apply uses_document_prints
    | apply uses_rule_prints
    | apply Forall_app_2
    | apply Forall_cons_2 ].

(** ** Running computations *)

Section Running.

Context {World : Type}.
Implicit Types s : @state World.

Lemma events_since_advances s s' t : advances s s' t -> events_since s s' = t.
Proof. intros [Ht _]. unfold events_since. rewrite Ht. apply drop_app_length. Qed.

Lemma advances_refl s : advances s s [].
Proof. split; [by rewrite app_nil_r | done]. Qed.

Lemma advances_trans s1 s2 s3 t1 t2 :
  advances s1 s2 t1 -> advances s2 s3 t2 -> advances s1 s3 (t1 ++ t2).
Proof.
  intros [Ht1 Hh1] [Ht2 Hh2]. split.
  - by rewrite Ht2, Ht1, app_assoc.
  - by etrans.
Qed.

Lemma advances_lookup s s' t (r : nat) (d : dict) :
  advances s s' t -> heap s !! r = Some d -> heap s' !! r = Some d.
Proof. intros [_ Hh] Hr. by eapply prefix_lookup_Some. Qed.

Lemma wp_ret {A} (a : A) (Q : outcome A -> state -> Prop) s :
  Q (Ok a) s -> wp (mret a) Q s.
Proof. done. Qed.

Lemma wp_bind {A B} (m : M A) (f : A -> M B) (Q : outcome B -> state -> Prop) s :
  wp m (fun o s' => match o with Ok a => wp (f a) Q s' | Raise e => Q (Raise e) s' end) s ->
  wp (m ≫= f) Q s.
Proof.
  unfold wp, mbind, M_bind. by destruct (m s) as [s' [a|e]].
Qed.

Lemma wp_raise {A} e (Q : outcome A -> state -> Prop) s :
  Q (Raise e) s -> wp (raise e) Q s.
Proof. done. Qed.

Lemma wp_lift {A} (o : outcome A) (Q : outcome A -> state -> Prop) s :
  Q o s -> wp (lift o) Q s.
Proof. done. Qed.

Lemma wp_try_except {A} (body : M A) handler (Q : outcome A -> state -> Prop) s :
  wp body (fun o s' =>
             match o with
             | Ok a => Q (Ok a) s'
             | Raise e => if is_Exception e then wp (handler e) Q s' else Q (Raise e) s'
             end) s ->
  wp (try_except body handler) Q s.
Proof.
  unfold wp, try_except. destruct (body s) as [s' [a|e]]; cbn [fst snd]; [done|].
  by destruct (is_Exception e).
Qed.

Lemma wp_emit e (Q : outcome unit -> state -> Prop) s :
  Q (Ok tt) (mkState (world s) (heap s) (trace s ++ [e])) -> wp (emit e) Q s.
Proof. done. Qed.

Lemma wp_print line (Q : outcome unit -> state -> Prop) s :
  Q (Ok tt) (mkState (world s) (heap s) (trace s ++ [Print line])) -> wp (print line) Q s.
Proof. done. Qed.

Lemma wp_external {A} (f : World -> World * outcome A) (Q : outcome A -> state -> Prop) s :
  Q (f (world s)).2 (mkState (f (world s)).1 (heap s) (trace s)) -> wp (external f) Q s.
Proof. unfold wp, external. by destruct (f (world s)). Qed.

Lemma wp_new_dict (d : dict) (Q : outcome nat -> state -> Prop) s :
  Q (Ok (length (heap s))) (mkState (world s) (heap s ++ [d]) (trace s)) ->
  wp (new_dict d) Q s.
Proof. done. Qed.

Lemma wp_mono {A} (m : M A) (Q Q' : outcome A -> state -> Prop) s :
  wp m Q s -> (forall o s', Q o s' -> Q' o s') -> wp m Q' s.
Proof. unfold wp. auto. Qed.

Lemma run_bind_Ok {A B} (m : M A) (f : A -> M B) s s' a :
  m s = (s', Ok a) -> (m ≫= f) s = f a s'.
Proof. intros H. unfold mbind, M_bind. by rewrite H. Qed.

Lemma run_bind_Raise {A B} (m : M A) (f : A -> M B) s s' e :
  m s = (s', Raise e) -> (m ≫= f) s = (s', Raise e).
Proof. intros H. unfold mbind, M_bind. by rewrite H. Qed.

Lemma run_bind_print {B} line (f : unit -> M B) s :
  (print line ≫= f) s = f tt (mkState (world s) (heap s) (trace s ++ [Print line])).
Proof. reflexivity. Qed.

Lemma run_try_Raise {A} (body : M A) handler s s' e :
  body s = (s', Raise e) -> is_Exception e = true ->
  try_except body handler s = handler e s'.
Proof. intros H He. unfold try_except. by rewrite H, He. Qed.

Lemma run_try_escape {A} (body : M A) handler s s' e :
  body s = (s', Raise e) -> is_Exception e = false ->
  try_except body handler s = (s', Raise e).
Proof. intros H He. unfold try_except. by rewrite H, He. Qed.

Lemma events_since_app s w h t :
  events_since s (mkState w h (trace s ++ t)) = t.
Proof. unfold events_since. cbn [trace]. apply drop_app_length. Qed.

(** Reading an item leaves the state as it is. *)
Lemma getitem_state (r : nat) key s : (getitem r key s).1 = s.
Proof.
  unfold getitem, deref, mbind, M_bind.
  destruct (heap s !! r) as [d|]; [|done]. by destruct (d !! key).
Qed.

Lemma getitem_Some (r : nat) key s (d : dict) v :
  heap s !! r = Some d -> d !! key = Some v -> getitem r key s = (s, Ok v).
Proof.
  intros Hr Hk. unfold getitem, deref, mbind, M_bind. by rewrite Hr, Hk.
Qed.

Lemma getitem_Ok (r : nat) key s v :
  (getitem r key s).2 = Ok v -> exists d : dict, heap s !! r = Some d ∧ d !! key = Some v.
Proof.
  unfold getitem, deref, mbind, M_bind.
  destruct (heap s !! r) as [d|]; [|done].
  destruct (d !! key) as [v'|] eqn:Hk; [|done].
  cbn. intros [= ->]. eauto.
Qed.

Lemma wp_getitem (r : nat) key (Q : outcome json -> state -> Prop) s :
  Q (getitem r key s).2 s -> wp (getitem r key) Q s.
Proof. unfold wp. by rewrite getitem_state. Qed.

(** *** Rules that follow a run from its first state

    [advances s0 s t] is what the run did so far; each rule extends it by
    the events of the next statement. *)

Lemma wp_emit_from s0 t e (Q : outcome unit -> state -> Prop) s :
  advances s0 s t ->
  (forall s', advances s0 s' (t ++ [e]) -> world s' = world s -> Q (Ok tt) s') ->
  wp (emit e) Q s.
Proof.
  intros Hadv HQ. apply wp_emit, HQ; [|done].
  eapply advances_trans; [done|]. by split.
Qed.

Lemma wp_print_from s0 t line (Q : outcome unit -> state -> Prop) s :
  advances s0 s t ->
  (forall s', advances s0 s' (t ++ [Print line]) -> world s' = world s -> Q (Ok tt) s') ->
  wp (print line) Q s.
Proof. apply wp_emit_from. Qed.

Lemma wp_print_keep s0 t line (Q : outcome unit -> state -> Prop) s :
  advances s0 s t ->
  (forall s', advances s0 s' (t ++ [Print line]) -> heap s' = heap s -> Q (Ok tt) s') ->
  wp (print line) Q s.
Proof.
  intros Hadv HQ. apply wp_print, HQ; [|done].
  eapply advances_trans; [done|]. by split.
Qed.

Lemma quiet_ret {A} (a : A) : quiet (World := World) (mret a).
Proof. intros s. exists []. apply advances_refl. Qed.

Lemma quiet_raise {A} e : quiet (World := World) (raise (A := A) e).
Proof. intros s. exists []. apply advances_refl. Qed.

Lemma quiet_lift {A} (o : outcome A) : quiet (World := World) (lift o).
Proof. intros s. exists []. apply advances_refl. Qed.

Lemma quiet_print line : quiet (World := World) (print line).
Proof. intros s. exists [line]. by split. Qed.

Lemma quiet_external {A} (f : World -> World * outcome A) : quiet (external f).
Proof.
  intros s. exists []. unfold external. destruct (f (world s)) as [w o].
  split; cbn; [by rewrite app_nil_r | done].
Qed.

Lemma quiet_new_dict (d : dict) : quiet (World := World) (new_dict d).
Proof.
  intros s. exists []. split; cbn; [by rewrite app_nil_r | by apply prefix_app_r].
Qed.

Lemma quiet_getitem (r : nat) key : quiet (World := World) (getitem r key).
Proof. intros s. exists []. rewrite getitem_state. apply advances_refl. Qed.

Lemma quiet_bind {A B} (m : M (World := World) A) (f : A -> M B) :
  quiet m -> (forall a, quiet (f a)) -> quiet (m ≫= f).
Proof.
  intros Hm Hf s. destruct (Hm s) as [l1 H1].
  unfold mbind, M_bind. destruct (m s) as [s1 [a|e]]; cbn in H1.
  - destruct (Hf a s1) as [l2 H2]. exists (l1 ++ l2).
    rewrite fmap_app. by eapply advances_trans.
  - by exists l1.
Qed.

End Running.

Ltac quiet_steps :=
  repeat first
    [ apply quiet_ret | apply quiet_raise | apply quiet_lift | apply quiet_print
    | apply quiet_external | apply quiet_new_dict | apply quiet_getitem
    | apply quiet_bind; [|intros ?]
    | match goal with |- quiet (match ?x with _ => _ end) => destruct x end ].

(** ** The functions of the agent *)

Section Facts.

Context {World Tag : Type} {libs : Libraries World Tag}.
Implicit Types s : @state World.

(** *** [fetch_webpage] *)

Lemma fetch_webpage_run url s :
  fetch_webpage url s =
    (mkState (requests_get url (world s)).1 (heap s)
       (trace s ++ [Call_fetch_webpage url; Print ("Fetching: " +:+ url)]),
     (requests_get url (world s)).2).
Proof.
  unfold fetch_webpage, mbind, M_bind, print, emit, external. cbn.
  destruct (requests_get url (world s)) as [w o]. cbn.
  rewrite <- app_assoc. by destruct o.
Qed.

(** *** [extract_products] *)

Lemma records_cons n p (c : Tag) cs :
  records n p (c :: cs) =
    match record_of n p c with
    | Some r => r :: records n p cs
    | None => records n p cs
    end.
Proof. reflexivity. Qed.

(** The loop over the containers appends, in order, the record of each
    container that has one. *)
Lemma for_container_records containers n p acc :
  Forall (answers n p) containers ->
  for_container containers n p acc = Ok (acc ++ records n p containers).
Proof.
  revert acc. induction containers as [|c cs IH]; intros acc Hans.
  - cbn. by rewrite app_nil_r.
  - apply Forall_cons in Hans as [[Hn Hp] Hcs].
    rewrite records_cons. cbn [for_container].
    unfold record_of, both_present, text_of.
    destruct (select_one c n) as [ne|]; [|done].
    destruct (select_one c p) as [pe|]; [|done].
    rewrite (IH _ Hcs).
    destruct ne as [ne|], pe as [pe|]; cbn [fmap option_fmap option_map]; try done.
    by destruct (truthy (Some (get_text_strip ne)) && truthy (Some (get_text_strip pe)));
      rewrite <- ?app_assoc.
Qed.

Lemma extract_products_run html c n p s :
  extract_products html c n p s =
    (mkState (world s) (heap s)
       (trace s ++ Call_extract_products html c n p :: (Print <$> extract_lines html c)),
     extraction html c n p).
Proof.
  unfold extract_products, extraction, extract_lines,
    mbind, M_bind, print, emit, lift. cbn.
  destruct (soup_select html c) as [containers|e]; cbn.
  - destruct (length containers =? 0)%nat; cbn.
    + by rewrite <- !app_assoc.
    + destruct (for_container containers n p []) as [products|e]; cbn.
      * destruct (length products =? 0)%nat; cbn; by rewrite <- !app_assoc.
      * by rewrite <- !app_assoc.
  - by rewrite <- !app_assoc.
Qed.

Lemma truthy_Some x : truthy (Some x) = true <-> x ≠ EmptyString.
Proof. by destruct x. Qed.

Lemma record_of_present n p (c : Tag) :
  both_present n p c = true ->
  exists r, record_of n p c = Some r ∧
            text_of c n = Some (name r) ∧ text_of c p = Some (price r) ∧
            name r ≠ EmptyString ∧ price r ≠ EmptyString.
Proof.
  intros Hb. unfold record_of. rewrite Hb.
  unfold both_present in Hb. apply andb_true_iff in Hb as [Hn Hp].
  destruct (text_of c n) as [a|]; [|done]. destruct (text_of c p) as [b|]; [|done].
  exists (mkProduct a b). by rewrite truthy_Some in Hn, Hp.
Qed.

Lemma record_of_missing n p (c : Tag) :
  both_present n p c = false -> record_of n p c = None.
Proof.
  intros Hb. unfold record_of. rewrite Hb.
  by destruct (text_of c n), (text_of c p).
Qed.

(** The records are those of the containers with both fields present,
    one for one and in the order of the containers. *)
Lemma records_in_order n p (containers : list Tag) :
  Forall2 (fun c r => text_of c n = Some (name r) ∧ text_of c p = Some (price r))
          (filter (fun c => both_present n p c = true) containers)
          (records n p containers).
Proof.
  induction containers as [|c cs IH]; [constructor|].
  rewrite records_cons. destruct (both_present n p c) eqn:Hb.
  - rewrite filter_cons_True by done.
    destruct (record_of_present _ _ _ Hb) as (r & -> & Hn & Hp & _). by constructor.
  - rewrite filter_cons_False by (rewrite Hb; discriminate).
    by rewrite record_of_missing.
Qed.

Lemma records_nonempty_fields n p (containers : list Tag) :
  Forall (fun r => name r ≠ EmptyString ∧ price r ≠ EmptyString) (records n p containers).
Proof.
  induction containers as [|c cs IH]; [constructor|].
  rewrite records_cons. destruct (both_present n p c) eqn:Hb.
  - destruct (record_of_present _ _ _ Hb) as (r & -> & _ & _ & Hn & Hp). by constructor.
  - by rewrite record_of_missing.
Qed.

Lemma length_zero_eqb {A} (l : list A) : (length l =? 0)%nat = false <-> l ≠ [].
Proof. destruct l; cbn; split; congruence. Qed.

(** C4, as the code has it.  For a document with at least one container
    on which both the name and the price locator resolve to non-empty
    trimmed text, [extract_products] succeeds; the record sequence has
    one record per such container, in document order, and no record has
    an empty name or price.  An element that is there but whose text is
    empty does not make its field present. *)
Theorem extract_products_records html c n p (containers : list Tag) s :
  soup_select html c = Ok containers ->
  Forall (answers n p) containers ->
  Exists (fun t => both_present n p t = true) containers ->
  (extract_products html c n p s).2 = Ok (Some (records n p containers), None) ∧
  length (records n p containers)
    = length (filter (fun t => both_present n p t = true) containers) ∧
  Forall2 (fun t r => text_of t n = Some (name r) ∧ text_of t p = Some (price r))
          (filter (fun t => both_present n p t = true) containers)
          (records n p containers) ∧
  Forall (fun r => name r ≠ EmptyString ∧ price r ≠ EmptyString) (records n p containers).
Proof.
  intros Hsel Hans Hex.
  pose proof (records_in_order n p containers) as Hord.
  assert (Hlen : length (records n p containers)
                 = length (filter (fun t => both_present n p t = true) containers))
    by (symmetry; eapply Forall2_length, Hord).
  assert (Hne : filter (fun t => both_present n p t = true) containers ≠ []).
  { apply Exists_exists in Hex as (t & Hin & Ht). intros Hnil.
    assert (t ∈ filter (fun t => both_present n p t = true) containers)
      by (by apply list_elem_of_filter). rewrite Hnil in *. by eapply not_elem_of_nil. }
  repeat split; [|done|done|apply records_nonempty_fields].
  rewrite extract_products_run. cbn [snd]. unfold extraction. rewrite Hsel.
  assert (containers ≠ []) as ->%length_zero_eqb by (by intros ->).
  rewrite for_container_records by done. cbn [app].
  assert (records n p containers ≠ []) as ->%length_zero_eqb; [|done].
  intros Hnil. rewrite Hnil in Hlen. by destruct (filter _ containers).
Qed.

Lemma extract_products_advances html c n p s :
  advances s (extract_products html c n p s).1
    (Call_extract_products html c n p :: (Print <$> extract_lines html c)).
Proof. rewrite extract_products_run. by split. Qed.

Lemma extract_products_console html c n p s :
  console (events_since s (extract_products html c n p s).1) = extract_lines html c.
Proof.
  rewrite (events_since_advances _ _ _ (extract_products_advances html c n p s)).
  apply console_prints.
Qed.

(** C5, as the code has it.  When no element matches the container
    locator, [extract_products] returns no record sequence and the
    reason ["No containers found with that selector"]: a fixed text,
    whatever the locator.  The locator is only printed. *)
Theorem extract_products_no_containers html c n p s :
  soup_select html c = Ok [] ->
  (extract_products html c n p s).2
    = Ok (None, Some "No containers found with that selector") ∧
  console (events_since s (extract_products html c n p s).1)
    = [ "Looking for products with selector: " +:+ format c; "Found 0 containers" ].
Proof.
  intros Hsel. split.
  - rewrite extract_products_run. cbn [snd]. unfold extraction. by rewrite Hsel.
  - rewrite extract_products_console. unfold extract_lines. by rewrite Hsel.
Qed.

Lemma records_none n p (containers : list Tag) :
  Forall (fun t => both_present n p t = false) containers -> records n p containers = [].
Proof.
  induction 1 as [|c cs Hc _ IH]; [done|].
  by rewrite records_cons, record_of_missing.
Qed.

(** C6, as the code has it.  When containers match but each of them
    lacks a non-empty name or price, [extract_products] returns no
    record sequence and the reason ["Found containers but couldn't
    extract name/price"]: a fixed text, whatever the number of
    containers and whichever field was missing.  The number of
    containers is only printed. *)
Theorem extract_products_no_fields html c n p (containers : list Tag) s :
  soup_select html c = Ok containers ->
  containers ≠ [] ->
  Forall (answers n p) containers ->
  Forall (fun t => both_present n p t = false) containers ->
  (extract_products html c n p s).2
    = Ok (None, Some "Found containers but couldn't extract name/price") ∧
  console (events_since s (extract_products html c n p s).1)
    = [ "Looking for products with selector: " +:+ format c;
        "Found " +:+ PyStr.of_nat (length containers) +:+ " containers" ].
Proof.
  intros Hsel Hne Hans Hmiss. split.
  - rewrite extract_products_run. cbn [snd]. unfold extraction. rewrite Hsel.
    apply length_zero_eqb in Hne as ->.
    by rewrite for_container_records, records_none.
  - rewrite extract_products_console. unfold extract_lines. by rewrite Hsel.
Qed.

(** *** [ask_ai_to_fix] *)

(** One invocation of the oracle adapter: its entry, then only printing;
    the dictionaries that existed are untouched. *)
Lemma ask_ai_to_fix_advances html r e s :
  exists lines,
    advances s (ask_ai_to_fix html r e s).1 (Call_ask_ai_to_fix html r e :: (Print <$> lines)).
Proof.
  assert (Hq : exists rest : M nat, quiet rest ∧
            ask_ai_to_fix html r e = (emit (Call_ask_ai_to_fix html r e) ;; rest)).
  { eexists. split; [|reflexivity]. quiet_steps. }
  destruct Hq as (rest & Hq & ->).
  unfold mbind, M_bind. cbn.
  destruct (Hq (mkState (world s) (heap s) (trace s ++ [Call_ask_ai_to_fix html r e])))
    as [lines Hadv].
  exists lines.
  destruct (rest _) as [s' [a|x]]; cbn in Hadv |- *;
    change (Call_ask_ai_to_fix html r e :: (Print <$> lines))
      with ([Call_ask_ai_to_fix html r e] ++ (Print <$> lines));
    (eapply advances_trans; [|done]); by split.
Qed.

(** The mapping the oracle adapter returns has the three keys: the
    adapter has read them for printing. *)
Lemma ask_ai_to_fix_rule html r e s l :
  (ask_ai_to_fix html r e s).2 = Ok l -> has_rule l (ask_ai_to_fix html r e s).1.
Proof.
  revert l.
  change (wp (ask_ai_to_fix html r e) (fun o s' => forall l, o = Ok l -> has_rule l s') s).
  unfold ask_ai_to_fix.
  apply wp_bind, wp_emit. apply wp_bind, wp_print. apply wp_bind, wp_external.
  match goal with |- match ?o with _ => _ end => destruct o; [|done] end.
  do 3 (apply wp_bind, wp_getitem;
        match goal with |- match ?o with _ => _ end => destruct o; [|done] end).
  apply wp_bind, wp_external.
  match goal with |- match ?o with _ => _ end => destruct o as [text|]; [|done] end.
  apply wp_bind, wp_lift.
  destruct (json_loads _) as [v|]; [|done].
  destruct v as [| | | | |members];
    try (apply wp_bind, wp_print, wp_raise; done).
  apply wp_bind, wp_new_dict. apply wp_bind, wp_print.
  apply wp_bind, wp_getitem.
  match goal with |- match ?o with _ => _ end => destruct o as [c|] eqn:Hc; [|done] end.
  apply wp_bind, wp_print. apply wp_bind, wp_getitem.
  match goal with |- match ?o with _ => _ end => destruct o as [n|] eqn:Hn; [|done] end.
  apply wp_bind, wp_print. apply wp_bind, wp_getitem.
  match goal with |- match ?o with _ => _ end => destruct o as [p|] eqn:Hp; [|done] end.
  apply wp_bind, wp_print. apply wp_ret.
  intros l [= <-].
  apply getitem_Ok in Hc as (d1 & Hd1 & Hc), Hn as (d2 & Hd2 & Hn), Hp as (d3 & Hd3 & Hp).
  cbn [heap] in *. rewrite Hd1 in Hd2, Hd3. injection Hd2 as <-. injection Hd3 as <-.
  exists c, n, p, d1. cbn [heap]. done.
Qed.

(** *** Rules for the three functions, from the first state of a run *)

Lemma wp_fetch_webpage_from s0 t url (Q : outcome string -> state -> Prop) s :
  advances s0 s t ->
  (forall s', advances s0 s' (t ++ [Call_fetch_webpage url; Print ("Fetching: " +:+ url)]) ->
              Q (requests_get url (world s)).2 s') ->
  wp (fetch_webpage url) Q s.
Proof.
  intros Hadv HQ. unfold wp. rewrite fetch_webpage_run. apply HQ.
  eapply advances_trans; [done|]. by split.
Qed.

Lemma wp_extract_products_from s0 t html c n p
    (Q : outcome (option (list Product) * option string) -> state -> Prop) s :
  advances s0 s t ->
  (forall s', advances s0 s'
                (t ++ Call_extract_products html c n p :: (Print <$> extract_lines html c)) ->
              Q (extraction html c n p) s') ->
  wp (extract_products html c n p) Q s.
Proof.
  intros Hadv HQ. unfold wp. rewrite extract_products_run. apply HQ.
  eapply advances_trans; [done|]. by split.
Qed.

Lemma wp_ask_ai_to_fix_from s0 t html r e (Q : outcome nat -> state -> Prop) s :
  advances s0 s t ->
  (forall s' lines,
      advances s0 s' (t ++ Call_ask_ai_to_fix html r e :: (Print <$> lines)) ->
      (forall l, (ask_ai_to_fix html r e s).2 = Ok l -> has_rule l s') ->
      Q (ask_ai_to_fix html r e s).2 s') ->
  wp (ask_ai_to_fix html r e) Q s.
Proof.
  intros Hadv HQ. unfold wp.
  destruct (ask_ai_to_fix_advances html r e s) as [lines Hl].
  eapply HQ; [by eapply advances_trans|]. apply ask_ai_to_fix_rule.
Qed.

(** *** One attempt *)



Ltac print_from Hadv s' Hw :=
  apply wp_bind; eapply wp_print_from; [exact Hadv|]; clear Hadv; intros s' Hadv Hw.

Ltac close_leaf Hadv :=
  eexists; split; [exact Hadv|]; split;
  [ count_simpl; repeat split; try lia; uses_document_steps; try done
  | try done ].

Ltac getitem_step Hadv :=
  apply wp_bind, wp_getitem;
  match goal with |- context [(getitem ?r ?k ?s).2] =>
    destruct (getitem r k s).2 as [?v|?e] eqn:? end; [|close_leaf Hadv].

(** From the point where [html] holds the document: the extraction and,
    when it fails, the repair step. *)
Ltac extract_and_repair Hadv :=
  let x := fresh "exc" in
  let s4 := fresh "sa" in let s5 := fresh "sb" in let s6 := fresh "sc" in
  let s7 := fresh "sd" in let Hw := fresh "Hwa" in let Hw' := fresh "Hwb" in
  getitem_step Hadv; getitem_step Hadv; getitem_step Hadv;
  apply wp_bind; eapply wp_extract_products_from; [exact Hadv|]; clear Hadv; intros s4 Hadv;
  match goal with |- context [extraction ?h ?c ?n ?p] =>
    destruct (extraction h c n p) as [[[[|? ?]|] ?]|?] eqn:? end;
  [ | print_from Hadv s5 Hw; apply wp_ret; close_leaf Hadv | | close_leaf Hadv ];
  (print_from Hadv s5 Hw; apply wp_bind;
   match goal with |- context [?a <? ?b] => destruct (a <? b) end;
   [ apply wp_try_except, wp_bind; eapply wp_ask_ai_to_fix_from; [exact Hadv|];
     clear Hadv; intros s6 ? Hadv _;
     match goal with |- context [(ask_ai_to_fix ?h ?r ?e ?s).2] =>
       destruct (ask_ai_to_fix h r e s).2 as [?|x] end;
     [ | destruct (is_Exception x); [|close_leaf Hadv] ];
     print_from Hadv s7 Hw'; apply wp_ret, wp_ret; close_leaf Hadv; eauto
   | apply wp_ret, wp_ret; close_leaf Hadv; eauto ]).

(** What one pass through the body of the loop does, whatever the
    collaborators answer: the calls it may make, the document they are
    given, and how it ends. *)
Lemma attempt_body_spec attempt url m cur html s :
  wp (attempt_body attempt url m cur html)
     (fun o s' => exists t,
        advances s s' t ∧
        within (if html is Some _ then 0 else 1) 1 (if attempt <? m then 1 else 0)
               (cached url html s) t ∧
        match o with
        | Ok (Return (Some products)) => products ≠ []
        | Ok (Return None) =>
            exists e, last (console t) = Some ("Couldn't fetch webpage: " +:+ exn_str e)
        | Ok (Next _ html') => html' = cached url html s ∧ is_Some html'
        | Raise e => True
        end) s.
Proof.
  pose proof (advances_refl s) as Hadv. unfold attempt_body.
  print_from Hadv s1 Hw1. print_from Hadv s2 Hw2. print_from Hadv s3 Hw3.
  rewrite Hw2, Hw1 in Hw3. clear Hw1 Hw2 s1 s2.
  apply wp_bind.
  destruct html as [text|].
  - apply wp_ret. cbn [cached].
    extract_and_repair Hadv.
  - apply wp_try_except, wp_bind.
    eapply wp_fetch_webpage_from; [exact Hadv|]; clear Hadv; intros s4 Hadv.
    unfold cached, response. rewrite Hw3.
    destruct (requests_get url (world s)).2 as [text|e].
    + apply wp_ret.
      extract_and_repair Hadv.
    + destruct (is_Exception e); [|close_leaf Hadv].
      print_from Hadv s5 Hw. apply wp_ret, wp_ret.
      eexists; split; [exact Hadv|]. split; [|exists e; apply last_console_snoc].
      count_simpl. repeat split; try lia. uses_document_steps; done.
Qed.

(** *** The loop and [run_agent] *)

Lemma within_app f1 x1 o1 f2 x2 o2 doc t1 t2 :
  within f1 x1 o1 doc t1 -> within f2 x2 o2 doc t2 ->
  within (f1 + f2) (x1 + x2) (o1 + o2) doc (t1 ++ t2).
Proof.
  unfold within, fetch_calls, extractor_calls, oracle_calls.
  intros (?&?&?&?) (?&?&?&?). rewrite !count_app. repeat split; try lia.
  by apply Forall_app_2.
Qed.

Lemma within_weaken f x o f' x' o' doc t :
  within f x o doc t -> (f <= f')%nat -> (x <= x')%nat -> (o <= o')%nat ->
  within f' x' o' doc t.
Proof. intros (?&?&?&?) ???. repeat split; [lia..|done]. Qed.

Lemma length_filter_below m a (rest : list Z) :
  length (filter (fun a => a < m) (a :: rest))
    = ((if Z.ltb a m then 1 else 0) + length (filter (fun a => Z.lt a m) rest))%nat.
Proof.
  destruct (Z.ltb_spec a m).
  - by rewrite filter_cons_True.
  - rewrite filter_cons_False by lia. done.
Qed.

Lemma last_app_Some {A} (l1 l2 : list A) x : last l2 = Some x -> last (l1 ++ l2) = Some x.
Proof. intros H. rewrite last_app. by rewrite H. Qed.

(** The same for the attempts still to be made: one Extractor invocation
    at most for each, and one oracle invocation at most for each attempt
    that is not the last. *)
Lemma for_attempt_spec attempts url m cur html s :
  wp (for_attempt attempts url m cur html)
     (fun o s' => exists t,
        advances s s' t ∧
        within (if html is Some _ then 0 else 1) (length attempts)
               (length (filter (fun a => a < m) attempts)) (cached url html s) t ∧
        match o with
        | Ok (Some products) => products ≠ []
        | Ok None =>
            (exists e, last (console t) = Some ("Couldn't fetch webpage: " +:+ exn_str e)) ∨
            last (console t) = Some ("Agent gave up after " +:+ PyStr.of_Z m +:+ " attempts")
        | Raise e => True
        end) s.
Proof.
  revert cur html s. induction attempts as [|attempt rest IH]; intros cur html s.
  - pose proof (advances_refl s) as Hadv. cbn [for_attempt].
    print_from Hadv s1 Hw. apply wp_ret.
    eexists; split; [exact Hadv|]. split; [|right; apply last_console_snoc].
    count_simpl. repeat split; try lia. uses_document_steps; done.
  - cbn [for_attempt]. apply wp_bind.
    eapply wp_mono; [apply attempt_body_spec|].
    intros o s1 (t1 & Hadv1 & Hin1 & Hout).
    rewrite length_filter_below. cbn [length].
    destruct o as [[result|cur' html']|e].
    + apply wp_ret. exists t1. split; [done|]. split.
      * eapply within_weaken; [done|lia..].
      * destruct result; [done|by left].
    + destruct Hout as [-> [doc Hdoc]].
      eapply wp_mono; [apply IH|].
      intros o s2 (t2 & Hadv2 & Hin2 & Hout2). rewrite Hdoc in Hin1, Hin2 |- *.
      cbn [cached] in Hin2.
      exists (t1 ++ t2). split; [by eapply advances_trans|]. split.
      * eapply within_weaken; [by eapply within_app|lia..].
      * destruct o as [[products|]|]; [done| |done].
        rewrite console_app.
        destruct Hout2 as [[e He]|He]; [left; exists e|right]; by apply last_app_Some.
    + exists t1. split; [done|]. split; [|done].
      eapply within_weaken; [done|lia..].
Qed.

Lemma length_py_range start stop : length (py_range start stop) = Z.to_nat (stop - start).
Proof. unfold py_range. by rewrite length_fmap, length_seq. Qed.

Lemma length_filter_seq_below m (k n : nat) :
  length (filter (fun a => a < m) ((fun i => 1 + Z.of_nat i) <$> seq k n))
    = Z.to_nat (Z.min (Z.of_nat (k + n)) (m - 1) - Z.of_nat k).
Proof.
  revert k. induction n as [|n IH]; intros k; cbn [seq fmap list_fmap].
  - cbn. lia.
  - rewrite length_filter_below.
    change (list_fmap nat Z ?f ?l) with (f <$> l). rewrite IH.
    destruct (Z.ltb_spec (1 + Z.of_nat k) m); lia.
Qed.

(** Of the attempts [1 .. m], those before the last are the [m - 1] that
    may be followed by a repair. *)
Lemma length_filter_py_range m :
  length (filter (fun a => a < m) (py_range 1 (m + 1))) = Z.to_nat (m - 1).
Proof. unfold py_range. rewrite length_filter_seq_below. lia. Qed.

Lemma dict_copy_run (r : nat) s :
  dict_copy r s =
    match heap s !! r with
    | Some d => (mkState (world s) (heap s ++ [d]) (trace s), Ok (length (heap s)))
    | None => (s, Raise dangling)
    end.
Proof. unfold dict_copy, deref, mbind, M_bind. by destruct (heap s !! r). Qed.

Lemma wp_dict_copy_from s0 t (r : nat) (Q : outcome nat -> state -> Prop) s :
  advances s0 s t ->
  (forall s' r', advances s0 s' t -> world s' = world s -> Q (Ok r') s') ->
  Q (Raise dangling) s ->
  wp (dict_copy r) Q s.
Proof.
  intros [Ht Hh] HQ HR. unfold wp. rewrite dict_copy_run.
  destruct (heap s !! r) as [d|]; [|done].
  apply HQ; [|done]. split; [done|]. cbn. by apply prefix_app_r.
Qed.

(** The whole run, from the banner to the value returned. *)
Lemma run_agent_spec url init m s :
  wp (run_agent url init m)
     (fun o s' => exists t,
        advances s s' t ∧
        within 1 (Z.to_nat m) (Z.to_nat (m - 1)) (response url (world s)) t ∧
        match o with
        | Ok (Some products) => products ≠ []
        | Ok None =>
            (exists e, last (console t) = Some ("Couldn't fetch webpage: " +:+ exn_str e)) ∨
            last (console t) = Some ("Agent gave up after " +:+ PyStr.of_Z m +:+ " attempts")
        | Raise e => True
        end) s.
Proof.
  pose proof (advances_refl s) as Hadv. unfold run_agent.
  print_from Hadv s1 Hw1. print_from Hadv s2 Hw2.
  print_from Hadv s3 Hw3. print_from Hadv s4 Hw4.
  rewrite Hw3, Hw2, Hw1 in Hw4. clear Hw1 Hw2 Hw3 s1 s2 s3.
  apply wp_bind. eapply wp_dict_copy_from; [exact Hadv| |].
  - intros s5 cur Hadv5 Hw5. rewrite Hw4 in Hw5.
    eapply wp_mono; [apply for_attempt_spec|].
    intros o s6 (t & Hadv6 & Hin & Hout).
    rewrite length_py_range, length_filter_py_range in Hin.
    unfold cached in Hin. rewrite Hw5 in Hin.
    replace (m + 1 - 1) with m in Hin by lia.
    eexists. split; [by eapply advances_trans|]. split.
    + eapply within_weaken; [eapply (within_app 0 0 0); [|exact Hin]|lia..].
      count_simpl. repeat split; try lia. uses_document_steps; done.
    + destruct o as [[products|]|]; [done| |done].
      rewrite console_app.
      destruct Hout as [[e He]|He]; [left; exists e|right]; by apply last_app_Some.
  - close_leaf Hadv.
Qed.

(** *** What every run does *)

Lemma run_agent_advances url init m s :
  exists t,
    advances s (run_agent url init m s).1 t ∧
    within 1 (Z.to_nat m) (Z.to_nat (m - 1)) (response url (world s)) t ∧
    match (run_agent url init m s).2 with
    | Ok (Some products) => products ≠ []
    | Ok None =>
        (exists e, last (console t) = Some ("Couldn't fetch webpage: " +:+ exn_str e)) ∨
        last (console t) = Some ("Agent gave up after " +:+ PyStr.of_Z m +:+ " attempts")
    | Raise e => True
    end.
Proof. apply (run_agent_spec url init m s). Qed.

(** C3. A run with maximum attempts [m] enters the Extractor at most [m]
    times and the oracle adapter at most [m - 1] times (for [m < 1],
    neither is entered). *)
Theorem run_agent_call_bounds url init m s :
  (extractor_calls (events_since s (run_agent url init m s).1) <= Z.to_nat m)%nat ∧
  (oracle_calls (events_since s (run_agent url init m s).1) <= Z.to_nat (m - 1))%nat.
Proof.
  destruct (run_agent_advances url init m s) as (t & Hadv & (_ & Hx & Ho & _) & _).
  by rewrite (events_since_advances _ _ _ Hadv).
Qed.

(** C8. A run fetches at most once, and every Extractor and oracle
    invocation of the run is given the document that fetch answered
    with. *)
Theorem run_agent_single_document url init m s :
  (fetch_calls (events_since s (run_agent url init m s).1) <= 1)%nat ∧
  Forall (uses_document (response url (world s)))
         (events_since s (run_agent url init m s).1).
Proof.
  destruct (run_agent_advances url init m s) as (t & Hadv & (Hf & _ & _ & Hd) & _).
  by rewrite (events_since_advances _ _ _ Hadv).
Qed.

Lemma run_agent_dangling url init m s :
  heap s !! init = None -> heap (run_agent url init m s).1 = heap s.
Proof.
  intros Hnone. unfold run_agent, mbind, M_bind, print, emit. cbn.
  rewrite dict_copy_run. cbn. by rewrite Hnone.
Qed.

(** C9. A run leaves the caller's selector dictionary as it was: the
    object at [init] holds after the run what it held before, and so
    does every other dictionary that existed. *)
Theorem run_agent_keeps_initial_selectors url init m s :
  heap (run_agent url init m s).1 !! init = heap s !! init ∧
  heap s `prefix_of` heap (run_agent url init m s).1.
Proof.
  destruct (run_agent_advances url init m s) as (t & Hadv & _).
  split; [|apply Hadv].
  destruct (heap s !! init) as [d|] eqn:Hd.
  - by eapply advances_lookup.
  - by rewrite run_agent_dangling.
Qed.

(** *** Runs that stop before any extraction *)

Lemma py_range_cons start stop :
  start < stop -> py_range start stop = start :: py_range (start + 1) stop.
Proof.
  intros Hlt. unfold py_range.
  replace (Z.to_nat (stop - start)) with (S (Z.to_nat (stop - (start + 1)))) by lia.
  cbn [seq fmap list_fmap]. f_equal; [lia|].
  change (list_fmap nat Z ?f ?l) with (f <$> l).
  rewrite <- fmap_S_seq, <- list_fmap_compose. apply list_fmap_ext.
  intros _ i _. cbn. lia.
Qed.

Lemma py_range_nil start stop : stop <= start -> py_range start stop = [].
Proof. intros Hle. unfold py_range. by replace (Z.to_nat (stop - start)) with 0%nat by lia. Qed.

Lemma dict_copy_Some (r : nat) (d : dict) s :
  heap s !! r = Some d ->
  dict_copy r s = (mkState (world s) (heap s ++ [d]) (trace s), Ok (length (heap s))).
Proof. intros Hd. by rewrite dict_copy_run, Hd. Qed.

(** C10. With maximum attempts 0 the run returns [None] after the banner
    and the give-up message: it does not fetch, and enters neither the
    Extractor nor the oracle adapter. *)
Theorem run_agent_zero_attempts url init (d : dict) s :
  heap s !! init = Some d ->
  (run_agent url init 0 s).2 = Ok None ∧
  events_since s (run_agent url init 0 s).1
    = Print <$> [ ""; PyStr.repeat "=" 50; "ADAPTIVE SCRAPER AGENT STARTING";
                  PyStr.repeat "=" 50; "Agent gave up after 0 attempts" ] ∧
  fetch_calls (events_since s (run_agent url init 0 s).1) = 0%nat ∧
  extractor_calls (events_since s (run_agent url init 0 s).1) = 0%nat ∧
  oracle_calls (events_since s (run_agent url init 0 s).1) = 0%nat ∧
  world (run_agent url init 0 s).1 = world s.
Proof.
  intros Hd.
  assert (Hrun : run_agent url init 0 s =
    (mkState (world s) (heap s ++ [d])
       (trace s ++ (Print <$> [ ""; PyStr.repeat "=" 50; "ADAPTIVE SCRAPER AGENT STARTING";
                                PyStr.repeat "=" 50; "Agent gave up after 0 attempts" ])),
     Ok None)).
  { unfold run_agent. rewrite !run_bind_print.
    erewrite run_bind_Ok by (by apply dict_copy_Some).
    rewrite py_range_nil by lia. cbn [for_attempt world heap trace].
    rewrite run_bind_print. cbn [world heap trace].
    by rewrite <- !app_assoc. }
  rewrite Hrun. cbn [fst snd world]. rewrite events_since_app.
  by count_simpl.
Qed.

(** C7. When the fetch fails, that is, raises an exception of a class
    under [Exception], the run returns [None] right after printing the
    failure: the fetch was entered once, the Extractor and the oracle
    adapter never. *)
Theorem run_agent_fetch_failure url init m (d : dict) e s :
  1 <= m ->
  heap s !! init = Some d ->
  (requests_get url (world s)).2 = Raise e ->
  is_Exception e = true ->
  (run_agent url init m s).2 = Ok None ∧
  events_since s (run_agent url init m s).1
    = (Print <$> [ ""; PyStr.repeat "=" 50; "ADAPTIVE SCRAPER AGENT STARTING";
                   PyStr.repeat "=" 50; "";
                   "ATTEMPT 1 of " +:+ PyStr.of_Z m; PyStr.repeat "-" 30 ])
      ++ [ Call_fetch_webpage url; Print ("Fetching: " +:+ url);
           Print ("Couldn't fetch webpage: " +:+ exn_str e) ] ∧
  fetch_calls (events_since s (run_agent url init m s).1) = 1%nat ∧
  extractor_calls (events_since s (run_agent url init m s).1) = 0%nat ∧
  oracle_calls (events_since s (run_agent url init m s).1) = 0%nat.
Proof.
  intros Hm Hd He Hclass.
  assert (Hrun : run_agent url init m s =
    (mkState (requests_get url (world s)).1 (heap s ++ [d])
       (trace s ++ (Print <$> [ ""; PyStr.repeat "=" 50; "ADAPTIVE SCRAPER AGENT STARTING";
                   PyStr.repeat "=" 50; "";
                   "ATTEMPT 1 of " +:+ PyStr.of_Z m; PyStr.repeat "-" 30 ])
      ++ [ Call_fetch_webpage url; Print ("Fetching: " +:+ url);
           Print ("Couldn't fetch webpage: " +:+ exn_str e) ]),
     Ok None)).
  { unfold run_agent. rewrite !run_bind_print.
    erewrite run_bind_Ok by (by apply dict_copy_Some).
    rewrite py_range_cons by lia. cbn [for_attempt world heap trace].
    erewrite run_bind_Ok; cycle 1.
    { unfold attempt_body. rewrite !run_bind_print. cbn [world heap trace].
      erewrite run_bind_Ok; cycle 1.
      { erewrite run_try_Raise; [|eapply run_bind_Raise|exact Hclass]; cycle 1.
        { rewrite fetch_webpage_run. cbn [world heap trace]. by rewrite He. }
        by rewrite run_bind_print. }
      done. }
    cbn [world heap trace]. by rewrite <- !app_assoc. }
  rewrite Hrun. cbn [fst snd]. rewrite events_since_app.
  by count_simpl.
Qed.

(** *** Rules that stay *)


End Facts.

(** * More of the code *)

(** ** Strings and lines *)

Lemma str_app_cons a s t : String a s +:+ t = String a (s +:+ t).
Proof. reflexivity. Qed.

Lemma str_app_nil_r s : s +:+ "" = s.
Proof. induction s as [|a s IH]; [done|]. by rewrite str_app_cons, IH. Qed.

Lemma str_app_assoc s t u : (s +:+ t) +:+ u = s +:+ t +:+ u.
Proof. induction s as [|a s IH]; [done|]. by rewrite !str_app_cons, IH. Qed.

Lemma str_length_app s t : String.length (s +:+ t) = (String.length s + String.length t)%nat.
Proof. induction s as [|a s IH]; [done|]. rewrite str_app_cons. cbn. by rewrite IH. Qed.

Lemma rev_app_app s t : String.rev_app s t = String.rev s +:+ t.
Proof.
  unfold String.rev. revert t. induction s as [|a s IH]; intros t; [done|].
  cbn. rewrite IH, (IH (String a "")). by rewrite str_app_assoc.
Qed.

Lemma rev_cons a s : String.rev (String a s) = String.rev s +:+ String a "".
Proof. unfold String.rev at 1. cbn. apply rev_app_app. Qed.

Lemma join_cons sep x y (l : list string) :
  PyStr.join sep (x :: y :: l) = x +:+ sep +:+ PyStr.join sep (y :: l).
Proof. reflexivity. Qed.

Lemma is_line_app s t : is_line (s +:+ t) = is_line s && is_line t.
Proof.
  induction s as [|a s IH]; [done|]. rewrite str_app_cons. cbn.
  by rewrite IH, andb_assoc.
Qed.

Lemma is_line_rev s : is_line (String.rev s) = is_line s.
Proof.
  induction s as [|a s IH]; [done|].
  rewrite rev_cons, is_line_app, IH. cbn. rewrite andb_true_r. apply andb_comm.
Qed.

(** [split] then [join] gives the text back. *)
Lemma join_split_go cur s :
  PyStr.join PyStr.nl (PyStr.split_lines_go cur s) = String.rev cur +:+ s.
Proof.
  revert cur. induction s as [|a s IH]; intros cur; cbn [PyStr.split_lines_go].
  - cbn. by rewrite str_app_nil_r.
  - destruct (Ascii.eqb_spec a "010"%char) as [->|Hne].
    + specialize (IH ""). destruct (PyStr.split_lines_go "" s) as [|y l] eqn:Hs.
      { by destruct s; cbn in Hs; [|destruct (Ascii.eqb _ _)]. }
      rewrite join_cons, IH. reflexivity.
    + rewrite IH, rev_cons, str_app_assoc. reflexivity.
Qed.

Lemma join_split s : PyStr.join PyStr.nl (PyStr.split_lines s) = s.
Proof. apply join_split_go. Qed.

Lemma split_lines_go_app cur a b :
  PyStr.split_lines_go cur (a +:+ PyStr.nl +:+ b)
    = PyStr.split_lines_go cur a ++ PyStr.split_lines b.
Proof.
  revert cur. induction a as [|x a IH]; intros cur.
  - reflexivity.
  - rewrite str_app_cons. cbn [PyStr.split_lines_go].
    destruct (Ascii.eqb x "010"%char); by rewrite IH.
Qed.

(** [(a + "\n" + b).split("\n")] is the lines of [a], then those of [b]. *)
Lemma split_lines_app a b :
  PyStr.split_lines (a +:+ PyStr.nl +:+ b) = PyStr.split_lines a ++ PyStr.split_lines b.
Proof. apply split_lines_go_app. Qed.

Lemma split_lines_go_line cur s :
  is_line s = true -> PyStr.split_lines_go cur s = [String.rev cur +:+ s].
Proof.
  revert cur. induction s as [|a s IH]; intros cur Hs; cbn [PyStr.split_lines_go].
  - by rewrite str_app_nil_r.
  - cbn in Hs. apply andb_true_iff in Hs as [Ha Hs].
    apply negb_true_iff in Ha. rewrite Ha, IH by done.
    by rewrite rev_cons, str_app_assoc.
Qed.

Lemma split_lines_line s : is_line s = true -> PyStr.split_lines s = [s].
Proof. apply split_lines_go_line. Qed.

Lemma split_lines_go_lines cur s :
  is_line cur = true -> Forall (fun l => is_line l = true) (PyStr.split_lines_go cur s).
Proof.
  revert cur. induction s as [|a s IH]; intros cur Hcur; cbn [PyStr.split_lines_go].
  - repeat constructor. by rewrite is_line_rev.
  - destruct (Ascii.eqb a "010"%char) eqn:Ha.
    + constructor; [by rewrite is_line_rev | by apply IH].
    + apply IH. cbn. by rewrite Ha, Hcur.
Qed.

(** The pieces [split] gives hold no line feed. *)
Lemma split_lines_lines s : Forall (fun l => is_line l = true) (PyStr.split_lines s).
Proof. by apply split_lines_go_lines. Qed.

(** [join] then [split] gives the lines back. *)
Lemma split_join (lines : list string) :
  lines ≠ [] -> Forall (fun l => is_line l = true) lines ->
  PyStr.split_lines (PyStr.join PyStr.nl lines) = lines.
Proof.
  induction lines as [|x [|y l] IH]; intros Hne Hl; [done| |].
  - apply Forall_cons in Hl as [Hx _]. by apply split_lines_line.
  - apply Forall_cons in Hl as [Hx Hl].
    rewrite join_cons, split_lines_app, split_lines_line, IH by done. reflexivity.
Qed.

(** ** The fences around the oracle's answer *)

Lemma startswith_app p l post :
  PyStr.startswith p l = true -> PyStr.startswith p (l +:+ post) = true.
Proof.
  revert l. induction p as [|a p IH]; intros l; [by destruct l|].
  destruct l as [|b l]; [done|]. rewrite str_app_cons. cbn.
  destruct (Ascii.eqb a b); [apply IH|done].
Qed.

Lemma contains_app p pre l post :
  PyStr.startswith p l = true -> PyStr.contains p (pre +:+ l +:+ post) = true.
Proof.
  intros Hl. induction pre as [|a pre IH].
  - change ("" +:+ l +:+ post) with (l +:+ post).
    destruct (l +:+ post) eqn:E; cbn; rewrite <- E, startswith_app by done; done.
  - rewrite str_app_cons. cbn [PyStr.contains]. rewrite IH. apply orb_true_r.
Qed.

Lemma split_lines_go_within cur s l :
  l ∈ PyStr.split_lines_go cur s ->
  exists pre post, String.rev cur +:+ s = pre +:+ l +:+ post.
Proof.
  revert cur. induction s as [|a s IH]; intros cur; cbn [PyStr.split_lines_go].
  - intros ->%list_elem_of_singleton. exists "", "". reflexivity.
  - destruct (Ascii.eqb_spec a "010"%char) as [->|Hne].
    + intros [->|Hin]%elem_of_cons.
      * exists "", (String "010"%char s). reflexivity.
      * destruct (IH _ Hin) as (pre & post & E).
        change (String.rev "" +:+ s) with s in E.
        exists (String.rev cur +:+ PyStr.nl +:+ pre), post.
        rewrite !str_app_assoc, <- E. reflexivity.
    + intros Hin. destruct (IH _ Hin) as (pre & post & E).
      exists pre, post. rewrite <- E, rev_cons, str_app_assoc. reflexivity.
Qed.

(** A text in which a line starts with the mark contains the mark. *)
Lemma contains_line p s l :
  l ∈ PyStr.split_lines s -> PyStr.startswith p l = true -> PyStr.contains p s = true.
Proof.
  intros Hin Hl. destruct (split_lines_go_within _ _ _ Hin) as (pre & post & E).
  change (String.rev "" +:+ s) with s in E. rewrite E. by apply contains_app.
Qed.

Lemma filter_kept_id (lines : list string) :
  Forall kept lines -> filter (fun line => PyStr.startswith "```" line = false) lines = lines.
Proof.
  induction 1 as [|l ls Hl _ IH]; [done|].
  rewrite filter_cons_True by exact Hl. by rewrite IH.
Qed.

Lemma strip_fences_id s :
  Forall kept (PyStr.split_lines s) -> strip_fences s = s.
Proof.
  intros Hk. unfold strip_fences. destruct (PyStr.contains "```" s); [|done].
  by rewrite filter_kept_id, join_split.
Qed.

(** X1. The parser is given the answer with the whitespace at its two
    ends removed and nothing else changed, whenever no line of the
    answer so trimmed starts with a fence mark; a mark inside a line
    does not count. *)
Theorem strip_fences_keeps text :
  Forall kept (PyStr.split_lines (PyStr.strip text)) ->
  strip_fences (PyStr.strip text) = PyStr.strip text.
Proof. apply strip_fences_id. Qed.

(** X2. After the fences are stripped no line starts with a fence mark,
    and stripping again changes nothing. *)
Theorem strip_fences_clean s :
  Forall kept (PyStr.split_lines (strip_fences s)) ∧
  strip_fences (strip_fences s) = strip_fences s.
Proof.
  assert (Hclean : Forall kept (PyStr.split_lines (strip_fences s))).
  { unfold strip_fences. destruct (PyStr.contains "```" s) eqn:Hc.
    - set (lines := filter _ _).
      assert (Hk : Forall kept lines).
      { apply Forall_forall. intros l Hl. by apply list_elem_of_filter in Hl as [Hl _]. }
      assert (Hlines : Forall (fun l => is_line l = true) lines).
      { apply Forall_forall. intros l Hl. apply list_elem_of_filter in Hl as [_ Hl].
        by eapply Forall_forall in Hl; [|apply split_lines_lines]. }
      destruct lines as [|x l] eqn:E; [by repeat constructor|].
      by rewrite split_join.
    - apply Forall_forall. intros l Hl. unfold kept, fence.
      destruct (PyStr.startswith "```" l) eqn:Hs; [|done].
      by rewrite (contains_line _ _ _ Hl Hs) in Hc. }
  split; [done|]. unfold strip_fences at 1.
  destruct (PyStr.contains "```" (strip_fences s)); [|done].
  by rewrite filter_kept_id, join_split.
Qed.

(** X3. An answer wrapped in a fence, [```tag], the payload, [```],
    gives the payload back, whatever the tag. *)
Theorem strip_fences_unwraps tag body :
  is_line tag = true ->
  Forall kept (PyStr.split_lines body) ->
  strip_fences (fence +:+ tag +:+ PyStr.nl +:+ body +:+ PyStr.nl +:+ fence) = body.
Proof.
  intros Htag Hbody. unfold strip_fences.
  assert (PyStr.contains "```" (fence +:+ tag +:+ PyStr.nl +:+ body +:+ PyStr.nl +:+ fence)
          = true) as ->.
  { apply (contains_app "```" "" fence). reflexivity. }
  rewrite <- (str_app_assoc fence tag), split_lines_app, split_lines_app.
  rewrite split_lines_line by (by rewrite is_line_app, Htag).
  rewrite (split_lines_line fence) by done.
  rewrite !filter_app, filter_cons_False, filter_nil.
  2:{ intros H. by rewrite startswith_app in H. }
  rewrite filter_kept_id by done. rewrite filter_cons_False, filter_nil by done.
  cbn [app]. rewrite app_nil_r. apply join_split.
Qed.

Section More.

Context {World Tag : Type} {libs : Libraries World Tag}.
Implicit Types s : @state World.

(** ** The request to the oracle *)

Lemma concat_app (l1 l2 : list string) :
  PyStr.concat (l1 ++ l2) = PyStr.concat l1 +:+ PyStr.concat l2.
Proof.
  induction l1 as [|c l1 IH]; [done|].
  cbn [app PyStr.concat]. by rewrite IH, str_app_assoc.
Qed.

Lemma characters_cons a (s : string) :
  PyStr.characters (String a s) =
    match PyStr.characters s with
    | c :: cs =>
        if PyStr.continues s then String a c :: cs else String a "" :: c :: cs
    | [] => [String a ""]
    end.
Proof. reflexivity. Qed.

(** A text is its characters, one after the other. *)
Lemma concat_characters (s : string) : PyStr.concat (PyStr.characters s) = s.
Proof.
  induction s as [|a s IH]; [done|]. rewrite characters_cons.
  destruct (PyStr.characters s) as [|c cs].
  - cbn in IH. by subst s.
  - destruct (PyStr.continues s); cbn [PyStr.concat] in *.
    + by rewrite str_app_cons, IH.
    + rewrite str_app_cons. change ("" +:+ ?x) with x. by rewrite IH.
Qed.

(** The first character begins with the first byte. *)
Lemma characters_head b (s : string) :
  exists c cs, PyStr.characters (String b s) = String b c :: cs.
Proof.
  rewrite characters_cons. destruct (PyStr.characters s) as [|c cs]; [by eauto|].
  destruct (PyStr.continues s); eauto.
Qed.

Lemma continues_head (s : string) c cs rest :
  PyStr.characters s = c :: cs -> PyStr.continues (c +:+ rest) = PyStr.continues s.
Proof.
  destruct s as [|b s]; [done|].
  destruct (characters_head b s) as (c' & cs' & ->). by intros [= <- _].
Qed.

(** The characters of [s[:n]] are the first [n] characters of [s]. *)
Lemma characters_take n (s : string) :
  PyStr.characters (PyStr.take n s) = firstn n (PyStr.characters s).
Proof.
  unfold PyStr.take. revert n. induction s as [|a s IH]; intros n.
  - by destruct n.
  - rewrite characters_cons. destruct (PyStr.characters s) as [|c cs] eqn:Hs.
    + by destruct n as [|[|n]].
    + destruct (PyStr.continues s) eqn:Hc; (destruct n as [|n]; [done|]).
      * cbn [firstn PyStr.concat]. rewrite str_app_cons, characters_cons.
        specialize (IH (S n)). cbn [firstn PyStr.concat] in IH. rewrite IH.
        by rewrite (continues_head s c cs), Hc.
      * cbn [firstn PyStr.concat]. rewrite str_app_cons.
        change ("" +:+ ?x) with x. rewrite characters_cons, IH.
        destruct n as [|n]; [done|]. cbn [firstn PyStr.concat].
        by rewrite (continues_head s c cs), Hc.
Qed.

Lemma len_take n (s : string) :
  PyStr.len (PyStr.take n s) = Nat.min n (PyStr.len s).
Proof. unfold PyStr.len. by rewrite characters_take, length_firstn. Qed.

Lemma take_prefix n (s : string) : exists rest, s = PyStr.take n s +:+ rest.
Proof.
  exists (PyStr.concat (skipn n (PyStr.characters s))). unfold PyStr.take.
  by rewrite <- concat_app, firstn_skipn, concat_characters.
Qed.

Lemma str_app_inv_length (s s' t t' : string) :
  String.length s = String.length s' -> s +:+ t = s' +:+ t' -> s = s'.
Proof.
  revert s'. induction s as [|a s IH]; intros [|a' s']; try done.
  rewrite !str_app_cons. intros [= Hl] [= -> H]. f_equal. by apply IH.
Qed.

Lemma str_app_inv_r (s s' t : string) : s +:+ t = s' +:+ t -> s = s'.
Proof.
  intros H. apply (str_app_inv_length s s' t t); [|done].
  apply (f_equal String.length) in H. rewrite !str_length_app in H. lia.
Qed.

(** X4. The request carries the first 3000 characters of the document
    and nothing else of it.  What is taken is the beginning of the
    document and has 3000 characters, or all of them when there are
    fewer; and two documents give the same request exactly when they
    agree on it. *)
Theorem prompt_document c n p e html :
  (exists rest, html = PyStr.take 3000 html +:+ rest) ∧
  PyStr.len (PyStr.take 3000 html) = Nat.min 3000 (PyStr.len html) ∧
  (forall html', prompt c n p e html = prompt c n p e html'
                 <-> PyStr.take 3000 html = PyStr.take 3000 html').
Proof.
  split; [apply take_prefix|]. split; [apply len_take|].
  intros html'. unfold prompt. cbn [PyStr.join]. split.
  - intros H. repeat (apply (inj (String.app _)) in H).
    by apply str_app_inv_r in H.
  - by intros ->.
Qed.

(** ** What the oracle adapter does with the answer *)

Lemma run_bind_emit {B} e (f : unit -> M B) s :
  (emit e ≫= f) s = f tt (mkState (world s) (heap s) (trace s ++ [e])).
Proof. reflexivity. Qed.

Lemma run_bind_external {A B} (g : World -> World * outcome A) (f : A -> M B) s w a :
  g (world s) = (w, Ok a) ->
  (external g ≫= f) s = f a (mkState w (heap s) (trace s)).
Proof. intros Hg. unfold mbind, M_bind, external. by rewrite Hg. Qed.

Lemma run_bind_external_Raise {A B} (g : World -> World * outcome A) (f : A -> M B) s w x :
  g (world s) = (w, Raise x) ->
  (external g ≫= f) s = (mkState w (heap s) (trace s), Raise x).
Proof. intros Hg. unfold mbind, M_bind, external. by rewrite Hg. Qed.

Lemma run_bind_getitem {B} (r : nat) key (f : json -> M B) s (d : dict) v :
  heap s !! r = Some d -> d !! key = Some v -> (getitem r key ≫= f) s = f v s.
Proof. intros Hd Hk. by apply run_bind_Ok, getitem_Some with d. Qed.

Lemma run_bind_getitem_None {B} (r : nat) key (f : json -> M B) s (d : dict) :
  heap s !! r = Some d -> d !! key = None ->
  (getitem r key ≫= f) s = (s, Raise (key_error key)).
Proof.
  intros Hd Hk. apply run_bind_Raise.
  unfold getitem, deref, mbind, M_bind. by rewrite Hd, Hk.
Qed.

Lemma run_bind_lift {A B} (o : outcome A) (f : A -> M B) s :
  (lift o ≫= f) s = match o with Ok a => f a s | Raise x => (s, Raise x) end.
Proof. unfold mbind, M_bind, lift. by destruct o. Qed.

Lemma run_bind_new_dict {B} (d : dict) (f : nat -> M B) s :
  (new_dict d ≫= f) s = f (length (heap s)) (mkState (world s) (heap s ++ [d]) (trace s)).
Proof. reflexivity. Qed.


(** The adapter stops at the first key the mapping lacks. *)
Lemma run_read_rule_missing {B} (r : nat) (d : dict) key (f : json -> json -> json -> M B) s :
  heap s !! r = Some d -> first_missing d = Some key ->
  (c ← getitem r "container"; n ← getitem r "name"; p ← getitem r "price"; f c n p) s
    = (s, Raise (key_error key)).
Proof.
  intros Hd. unfold first_missing.
  destruct (d !! "container") as [c|] eqn:Hc;
    [|intros [= <-]; by eapply run_bind_getitem_None].
  erewrite run_bind_getitem by done.
  destruct (d !! "name") as [n|] eqn:Hn;
    [|intros [= <-]; by eapply run_bind_getitem_None].
  erewrite run_bind_getitem by done.
  destruct (d !! "price") as [p|] eqn:Hp;
    [|intros [= <-]; by eapply run_bind_getitem_None].
  done.
Qed.

(** X5. A current mapping that lacks one of the three keys makes the
    adapter raise the [KeyError] of the first missing key before the
    model is asked: the world is as the constructor of the client left
    it, and no mapping is created. *)
Theorem ask_ai_to_fix_incomplete_rule html (r : nat) e s (d : dict) key w1 :
  heap s !! r = Some d ->
  first_missing d = Some key ->
  anthropic_new (world s) = (w1, Ok tt) ->
  ask_ai_to_fix html r e s =
    (mkState w1 (heap s)
       (trace s ++ [Call_ask_ai_to_fix html r e; Print "Asking AI to analyze the problem..."]),
     Raise (key_error key)).
Proof.
  intros Hd Hmiss Hclient. unfold ask_ai_to_fix.
  rewrite run_bind_emit, run_bind_print.
  erewrite run_bind_external by exact Hclient. cbn [world heap trace].
  erewrite run_read_rule_missing by done. by rewrite <- app_assoc.
Qed.

Section Answer.

Variables (html : string) (r : nat) (e : option string) (s : @state World).
Variables (c n p : json) (w1 w2 : World) (text : string).
Hypothesis rule : rule_at r c n p s.
Hypothesis client : anthropic_new (world s) = (w1, Ok tt).
Hypothesis answer :
  messages_create model max_tokens (prompt c n p e html) w1 = (w2, Ok text).

Lemma ask_ai_to_fix_answered :
  ask_ai_to_fix html r e s =
    match json_loads (strip_fences (PyStr.strip text)) with
    | Raise x => (asked html r e w2 s, Raise x)
    | Ok (JObject members) =>
        (new_selectors ← new_dict (dict_of_members members);
         print "AI suggests:";;
         container ← getitem new_selectors "container";
         print ("   Container: " +:+ format container);;
         name ← getitem new_selectors "name";
         print ("   Name: " +:+ format name);;
         price ← getitem new_selectors "price";
         print ("   Price: " +:+ format price);;
         mret new_selectors) (asked html r e w2 s)
    | Ok v => (print "AI suggests:";; raise (subscript_error v)) (asked html r e w2 s)
    end.
Proof.
  destruct rule as (d & Hd & Hc & Hn & Hp). unfold ask_ai_to_fix.
  rewrite run_bind_emit, run_bind_print.
  erewrite run_bind_external by exact client. cbn [world heap trace].
  erewrite !run_bind_getitem by done.
  erewrite run_bind_external by exact answer. cbn [world heap trace].
  rewrite run_bind_lift. unfold asked. rewrite <- app_assoc.
  by destruct (json_loads _) as [[]|].
Qed.

(** X6. When the parser rejects the answer, the adapter raises the
    parser's exception: nothing more is printed and no mapping is
    created. *)
Theorem ask_ai_to_fix_unparsable x :
  json_loads (strip_fences (PyStr.strip text)) = Raise x ->
  ask_ai_to_fix html r e s = (asked html r e w2 s, Raise x).
Proof. intros Hx. by rewrite ask_ai_to_fix_answered, Hx. Qed.

(** X7. When the answer parses to something that is not an object, the
    adapter prints ["AI suggests:"] and raises the subscript error of
    that value; no mapping is created. *)
Theorem ask_ai_to_fix_not_an_object v :
  json_loads (strip_fences (PyStr.strip text)) = Ok v ->
  (forall members, v ≠ JObject members) ->
  ask_ai_to_fix html r e s =
    (mkState w2 (heap s) (trace (asked html r e w2 s) ++ [Print "AI suggests:"]),
     Raise (subscript_error v)).
Proof.
  intros Hv Hobj. rewrite ask_ai_to_fix_answered, Hv.
  destruct v; try reflexivity. by destruct (Hobj members).
Qed.

Lemma lookup_new (h : list dict) (d : dict) : (h ++ [d]) !! length h = Some d.
Proof. by rewrite lookup_app_r, Nat.sub_diag. Qed.

(** X8. When the answer is an object that lacks one of the three keys,
    the adapter raises the [KeyError] of the first missing key; the
    mapping it built stays in the store, unused. *)
Theorem ask_ai_to_fix_missing_key members key :
  json_loads (strip_fences (PyStr.strip text)) = Ok (JObject members) ->
  first_missing (dict_of_members members) = Some key ->
  (ask_ai_to_fix html r e s).2 = Raise (key_error key) ∧
  heap (ask_ai_to_fix html r e s).1 = heap s ++ [dict_of_members members] ∧
  world (ask_ai_to_fix html r e s).1 = w2.
Proof.
  intros Hv Hmiss. rewrite ask_ai_to_fix_answered, Hv.
  rewrite run_bind_new_dict, run_bind_print. cbn [world heap trace].
  pose proof (lookup_new (heap s) (dict_of_members members)) as Hl.
  revert Hmiss. unfold first_missing.
  destruct (dict_of_members members !! "container") as [c'|] eqn:Hc;
    [|intros [= <-]; by erewrite run_bind_getitem_None].
  erewrite run_bind_getitem by done. rewrite run_bind_print. cbn [world heap trace].
  destruct (dict_of_members members !! "name") as [n'|] eqn:Hn;
    [|intros [= <-]; by erewrite run_bind_getitem_None].
  erewrite run_bind_getitem by done. rewrite run_bind_print. cbn [world heap trace].
  destruct (dict_of_members members !! "price") as [p'|] eqn:Hp;
    [|intros [= <-]; by erewrite run_bind_getitem_None].
  done.
Qed.

Lemma ask_ai_to_fix_stores members c' n' p' :
  json_loads (strip_fences (PyStr.strip text)) = Ok (JObject members) ->
  dict_of_members members !! "container" = Some c' ->
  dict_of_members members !! "name" = Some n' ->
  dict_of_members members !! "price" = Some p' ->
  ask_ai_to_fix html r e s =
    (mkState w2 (heap s ++ [dict_of_members members])
       (trace s ++ [ Call_ask_ai_to_fix html r e;
                     Print "Asking AI to analyze the problem...";
                     Print "AI suggests:";
                     Print ("   Container: " +:+ format c');
                     Print ("   Name: " +:+ format n');
                     Print ("   Price: " +:+ format p') ]),
     Ok (length (heap s))).
Proof.
  intros Hv Hc Hn Hp. rewrite ask_ai_to_fix_answered, Hv.
  rewrite run_bind_new_dict, run_bind_print. cbn [world heap trace].
  pose proof (lookup_new (heap s) (dict_of_members members)) as Hl.
  erewrite run_bind_getitem by done. rewrite run_bind_print. cbn [world heap trace].
  erewrite run_bind_getitem by done. rewrite run_bind_print. cbn [world heap trace].
  erewrite run_bind_getitem by done. rewrite run_bind_print. cbn [world heap trace].
  unfold asked. cbn [trace]. by rewrite <- !app_assoc.
Qed.

(** X9. When the answer is an object with the three keys, the adapter
    returns a new mapping, stored after the existing ones, that holds
    what the object holds; it prints the three selectors it found there
    and leaves the mapping it was given as it is. *)
Theorem ask_ai_to_fix_accepts members c' n' p' :
  json_loads (strip_fences (PyStr.strip text)) = Ok (JObject members) ->
  dict_of_members members !! "container" = Some c' ->
  dict_of_members members !! "name" = Some n' ->
  dict_of_members members !! "price" = Some p' ->
  exists new_selectors,
    (ask_ai_to_fix html r e s).2 = Ok new_selectors ∧
    new_selectors ≠ r ∧
    heap (ask_ai_to_fix html r e s).1 !! new_selectors = Some (dict_of_members members) ∧
    rule_at r c n p (ask_ai_to_fix html r e s).1 ∧
    console (events_since s (ask_ai_to_fix html r e s).1)
      = [ "Asking AI to analyze the problem..."; "AI suggests:";
          "   Container: " +:+ format c'; "   Name: " +:+ format n';
          "   Price: " +:+ format p' ].
Proof.
  intros Hv Hc Hn Hp. rewrite (ask_ai_to_fix_stores members c' n' p') by done.
  cbn [fst snd heap]. exists (length (heap s)).
  destruct rule as (d & Hd & Hkeys).
  split; [done|]. split; [|split; [apply lookup_new|split]].
  - apply lookup_lt_Some in Hd. lia.
  - exists d. split; [|done]. by apply lookup_app_l_Some.
  - by rewrite events_since_app.
Qed.

End Answer.

(** X10. When the model service cannot be used, because the client
    cannot be made or the request raises, the adapter raises that
    exception: it has only announced itself, and no mapping is
    created. *)
Theorem ask_ai_to_fix_unavailable html (r : nat) e s x :
  (anthropic_new (world s)).2 = Raise x ∨
  (exists w1 c n p,
      anthropic_new (world s) = (w1, Ok tt) ∧ rule_at r c n p s ∧
      (messages_create model max_tokens (prompt c n p e html) w1).2 = Raise x) ->
  (ask_ai_to_fix html r e s).2 = Raise x ∧
  heap (ask_ai_to_fix html r e s).1 = heap s ∧
  events_since s (ask_ai_to_fix html r e s).1
    = [Call_ask_ai_to_fix html r e; Print "Asking AI to analyze the problem..."].
Proof.
  intros [Hclient|(w1 & c & n & p & Hclient & (d & Hd & Hc & Hn & Hp) & Hreq)];
    unfold ask_ai_to_fix; rewrite run_bind_emit, run_bind_print.
  - destruct (anthropic_new (world s)) as [w o] eqn:E. cbn in Hclient. subst o.
    erewrite run_bind_external_Raise by exact E.
    cbn [fst snd world heap trace]. rewrite <- app_assoc.
    by rewrite events_since_app.
  - erewrite run_bind_external by exact Hclient. cbn [world heap trace].
    erewrite !run_bind_getitem by done.
    destruct (messages_create _ _ _ w1) as [w o] eqn:E. cbn in Hreq. subst o.
    erewrite run_bind_external_Raise by exact E.
    cbn [fst snd world heap trace]. rewrite <- app_assoc.
    by rewrite events_since_app.
Qed.

(** ** What [extract_products] returns *)

Lemma for_container_answers (containers : list Tag) n p acc products :
  for_container containers n p acc = Ok products -> Forall (answers n p) containers.
Proof.
  revert acc. induction containers as [|c cs IH]; intros acc; [by constructor|].
  cbn [for_container].
  destruct (select_one c n) as [ne|] eqn:En; [|done].
  destruct (select_one c p) as [pe|] eqn:Ep; [|done].
  intros H. constructor; [|by eapply IH].
  unfold answers. by rewrite En, Ep.
Qed.

(** X11. [extract_products] raises exactly when the selector engine
    does: on the container locator, or on the name or price locator of
    one of the matched containers. *)
Theorem extract_products_raises html c n p s :
  raised (extract_products html c n p s).2 = false <->
  exists containers, soup_select html c = Ok containers ∧ Forall (answers n p) containers.
Proof.
  rewrite extract_products_run. cbn [snd]. unfold extraction. split.
  - destruct (soup_select html c) as [containers|]; [|done].
    intros H. exists containers. split; [done|].
    destruct (length containers =? 0)%nat eqn:E.
    + apply Nat.eqb_eq in E. by destruct containers.
    + destruct (for_container containers n p []) as [products|] eqn:Ef; [|done].
      by eapply for_container_answers.
  - intros (containers & -> & Hans).
    destruct (length containers =? 0)%nat; [done|].
    rewrite for_container_records by done.
    by destruct (length _ =? 0)%nat.
Qed.

Lemma extraction_products html c n p products error :
  extraction html c n p = Ok (Some products, error) ->
  products ≠ [] ∧ error = None ∧
  exists containers, soup_select html c = Ok containers ∧
                     Forall (answers n p) containers ∧
                     products = records n p containers.
Proof.
  unfold extraction.
  destruct (soup_select html c) as [containers|]; [|done].
  destruct (length containers =? 0)%nat; [done|].
  destruct (for_container containers n p []) as [ps|] eqn:Ef; [|done].
  pose proof (for_container_answers _ _ _ _ _ Ef) as Hans.
  rewrite for_container_records in Ef by done. injection Ef as <-.
  destruct (length _ =? 0)%nat eqn:E; [done|]. intros [= <- <-].
  apply length_zero_eqb in E. split; [done|]. split; [done|]. by exists containers.
Qed.

(** X12. Of the two results exactly one is populated: either no products
    and one of the two fixed reasons, or a non-empty product list and
    no reason.  The call leaves the world and the store as they were. *)
Theorem extract_products_shape html c n p s :
  match (extract_products html c n p s).2 with
  | Ok (Some products, None) => products ≠ []
  | Ok (None, Some reason) =>
      reason = "No containers found with that selector" ∨
      reason = "Found containers but couldn't extract name/price"
  | Ok _ => False
  | Raise _ => True
  end ∧
  world (extract_products html c n p s).1 = world s ∧
  heap (extract_products html c n p s).1 = heap s.
Proof.
  rewrite extract_products_run. cbn [fst snd world heap]. split; [|done].
  destruct (extraction html c n p) as [[[products|] error]|] eqn:E; [| |done].
  - by apply extraction_products in E as (? & -> & _).
  - unfold extraction in E.
    destruct (soup_select html c) as [containers|]; [|done].
    destruct (length containers =? 0)%nat; [injection E as <-; by left|].
    destruct (for_container containers n p []) as [ps|]; [|done].
    destruct (length ps =? 0)%nat; [injection E as <-; by right|done].
Qed.

(** X13. Whenever [extract_products] returns products, they are the
    records of the matched containers: each has the name and price text
    of a matched container, and there are no more of them than
    containers. *)
Theorem extract_products_from_containers html c n p s (containers : list Tag) products error :
  soup_select html c = Ok containers ->
  (extract_products html c n p s).2 = Ok (Some products, error) ->
  (length products <= length containers)%nat ∧
  Forall (fun r => exists t, t ∈ containers ∧
                   text_of t n = Some (name r) ∧ text_of t p = Some (price r)) products.
Proof.
  intros Hsel. rewrite extract_products_run. cbn [snd].
  intros (_ & _ & cs & Hcs & _ & ->)%extraction_products.
  rewrite Hsel in Hcs. injection Hcs as <-.
  pose proof (records_in_order n p containers) as Hord. split.
  - rewrite <- (Forall2_length _ _ _ Hord). apply length_filter.
  - apply Forall_forall. intros r Hr.
    apply list_elem_of_lookup in Hr as [i Hi].
    destruct (Forall2_lookup_r _ _ _ _ _ Hord Hi) as (t & Ht & Hn & Hp).
    exists t. split; [|done].
    apply list_elem_of_lookup_2 in Ht. by apply list_elem_of_filter in Ht as [_ Ht].
Qed.

(** ** Runs that end early *)

Lemma run_try_except_Ok {A} (body : M A) handler s s' a :
  body s = (s', Ok a) -> try_except body handler s = (s', Ok a).
Proof. intros H. unfold try_except. by rewrite H. Qed.

(** X14. With a maximum of attempts below 1 the run does what it does
    with 0: it prints the banner and the give-up line and returns
    [None], without fetching and without entering the Extractor or the
    oracle adapter. *)
Theorem run_agent_no_attempts url init m (d : dict) s :
  m <= 0 ->
  heap s !! init = Some d ->
  (run_agent url init m s).2 = Ok None ∧
  events_since s (run_agent url init m s).1
    = Print <$> [ ""; PyStr.repeat "=" 50; "ADAPTIVE SCRAPER AGENT STARTING";
                  PyStr.repeat "=" 50;
                  "Agent gave up after " +:+ PyStr.of_Z m +:+ " attempts" ] ∧
  world (run_agent url init m s).1 = world s.
Proof.
  intros Hm Hd.
  assert (Hrun : run_agent url init m s =
    (mkState (world s) (heap s ++ [d])
       (trace s ++ (Print <$> [ ""; PyStr.repeat "=" 50; "ADAPTIVE SCRAPER AGENT STARTING";
                                PyStr.repeat "=" 50;
                                "Agent gave up after " +:+ PyStr.of_Z m +:+ " attempts" ])),
     Ok None)).
  { unfold run_agent. rewrite !run_bind_print.
    erewrite run_bind_Ok by (by apply dict_copy_Some).
    rewrite py_range_nil by lia. cbn [for_attempt world heap trace].
    rewrite run_bind_print. cbn [world heap trace].
    by rewrite <- !app_assoc. }
  rewrite Hrun. cbn [fst snd world]. by rewrite events_since_app.
Qed.

(** X15. When the caller's mapping lacks one of the three keys, the run
    fetches the document and then the [KeyError] of the first missing
    key reaches the caller: the Extractor and the oracle adapter are
    never entered. *)
Theorem run_agent_incomplete_rule url init m (d : dict) key doc s :
  1 <= m ->
  heap s !! init = Some d ->
  first_missing d = Some key ->
  (requests_get url (world s)).2 = Ok doc ->
  (run_agent url init m s).2 = Raise (key_error key) ∧
  fetch_calls (events_since s (run_agent url init m s).1) = 1%nat ∧
  extractor_calls (events_since s (run_agent url init m s).1) = 0%nat ∧
  oracle_calls (events_since s (run_agent url init m s).1) = 0%nat.
Proof.
  intros Hm Hd Hmiss Hdoc.
  assert (Hrun : run_agent url init m s =
    (mkState (requests_get url (world s)).1 (heap s ++ [d])
       (trace s ++ (Print <$> [ ""; PyStr.repeat "=" 50; "ADAPTIVE SCRAPER AGENT STARTING";
                   PyStr.repeat "=" 50; "";
                   "ATTEMPT 1 of " +:+ PyStr.of_Z m; PyStr.repeat "-" 30 ])
      ++ [ Call_fetch_webpage url; Print ("Fetching: " +:+ url) ]),
     Raise (key_error key))).
  { unfold run_agent. rewrite !run_bind_print.
    erewrite run_bind_Ok by (by apply dict_copy_Some).
    rewrite py_range_cons by lia. cbn [for_attempt world heap trace].
    erewrite run_bind_Raise; [reflexivity|].
    unfold attempt_body. rewrite !run_bind_print. cbn [world heap trace].
    erewrite run_bind_Ok; cycle 1.
    { apply run_try_except_Ok.
      erewrite run_bind_Ok; [reflexivity|].
      rewrite fetch_webpage_run. cbn [world heap trace]. by rewrite Hdoc. }
    cbn [world heap trace].
    erewrite run_read_rule_missing; [|apply lookup_new|done].
    by rewrite <- !app_assoc. }
  rewrite Hrun. cbn [fst snd]. rewrite events_since_app. by count_simpl.
Qed.

(** X16. When the rule works on the fetched document, the run returns
    the Extractor's records after one fetch and one extraction; the
    oracle adapter is not entered and the model service is not
    contacted: the world is as the fetch left it. *)
Theorem run_agent_first_attempt url init m c n p doc products s :
  1 <= m ->
  rule_at init c n p s ->
  (requests_get url (world s)).2 = Ok doc ->
  extraction doc c n p = Ok (Some products, None) ->
  (run_agent url init m s).2 = Ok (Some products) ∧
  world (run_agent url init m s).1 = (requests_get url (world s)).1 ∧
  fetch_calls (events_since s (run_agent url init m s).1) = 1%nat ∧
  extractor_calls (events_since s (run_agent url init m s).1) = 1%nat ∧
  oracle_calls (events_since s (run_agent url init m s).1) = 0%nat ∧
  last (console (events_since s (run_agent url init m s).1))
    = Some ("SUCCESS! Found " +:+ PyStr.of_nat (length products) +:+ " products!").
Proof.
  intros Hm (d & Hd & Hc & Hn & Hp) Hdoc Hx.
  assert (Hne : products ≠ []) by (by apply extraction_products in Hx as [? _]).
  assert (Hrun : run_agent url init m s =
    (mkState (requests_get url (world s)).1 (heap s ++ [d])
       (trace s ++ ((Print <$> [ ""; PyStr.repeat "=" 50; "ADAPTIVE SCRAPER AGENT STARTING";
                   PyStr.repeat "=" 50; "";
                   "ATTEMPT 1 of " +:+ PyStr.of_Z m; PyStr.repeat "-" 30 ])
      ++ [ Call_fetch_webpage url; Print ("Fetching: " +:+ url) ]
      ++ Call_extract_products doc c n p :: (Print <$> extract_lines doc c))
      ++ [ Print ("SUCCESS! Found " +:+ PyStr.of_nat (length products) +:+ " products!") ]),
     Ok (Some products))).
  { unfold run_agent. rewrite !run_bind_print.
    erewrite run_bind_Ok by (by apply dict_copy_Some).
    rewrite py_range_cons by lia. cbn [for_attempt world heap trace].
    erewrite run_bind_Ok; cycle 1.
    { unfold attempt_body. rewrite !run_bind_print. cbn [world heap trace].
      erewrite run_bind_Ok; cycle 1.
      { apply run_try_except_Ok.
        erewrite run_bind_Ok; [reflexivity|].
        rewrite fetch_webpage_run. cbn [world heap trace]. by rewrite Hdoc. }
      cbn [world heap trace].
      erewrite !run_bind_getitem by (done || apply lookup_new).
      erewrite run_bind_Ok by (rewrite extract_products_run, Hx; reflexivity).
      destruct products as [|product rest]; [done|].
      rewrite run_bind_print. reflexivity. }
    cbn [world heap trace]. by rewrite <- !app_assoc. }
  rewrite Hrun. cbn [fst snd world]. rewrite events_since_app.
  rewrite last_console_snoc. by count_simpl.
Qed.

(** ** A run that repairs its rule *)

Lemma calls_app (t1 t2 : list event) : calls (t1 ++ t2) = calls t1 ++ calls t2.
Proof. apply omap_app. Qed.

Lemma calls_cons e (t : list event) :
  calls (e :: t) = match e with Print _ => calls t | _ => e :: calls t end.
Proof. by destruct e. Qed.

Lemma calls_prints lines : calls (Print <$> lines) = [].
Proof. by induction lines. Qed.

(** X17. When the rule fails on the fetched document and the oracle
    answers with an object whose three selectors work on it, a run with
    a budget of two or more returns the records under the proposed
    selectors: one fetch, an extraction under the caller's rule, one
    oracle invocation on the run's copy of the mapping with the reason
    of the failure, and an extraction under the proposed rule. *)
Theorem run_agent_repaired url init m c n p doc error w0 w1 w2 text members c' n' p'
    products s :
  2 <= m ->
  rule_at init c n p s ->
  requests_get url (world s) = (w0, Ok doc) ->
  extraction doc c n p = Ok (None, error) ->
  anthropic_new w0 = (w1, Ok tt) ->
  messages_create model max_tokens (prompt c n p error doc) w1 = (w2, Ok text) ->
  json_loads (strip_fences (PyStr.strip text)) = Ok (JObject members) ->
  dict_of_members members !! "container" = Some c' ->
  dict_of_members members !! "name" = Some n' ->
  dict_of_members members !! "price" = Some p' ->
  extraction doc c' n' p' = Ok (Some products, None) ->
  (run_agent url init m s).2 = Ok (Some products) ∧
  world (run_agent url init m s).1 = w2 ∧
  calls (events_since s (run_agent url init m s).1)
    = [ Call_fetch_webpage url;
        Call_extract_products doc c n p;
        Call_ask_ai_to_fix doc (length (heap s)) error;
        Call_extract_products doc c' n' p' ] ∧
  last (console (events_since s (run_agent url init m s).1))
    = Some ("SUCCESS! Found " +:+ PyStr.of_nat (length products) +:+ " products!").
Proof.
  intros Hm (d & Hd & Hc & Hn & Hp) Hdoc Hfail Hclient Hanswer Hv Hc' Hn' Hp' Hx.
  assert (Hne : products ≠ []) by (by apply extraction_products in Hx as [? _]).
  enough (exists t,
    run_agent url init m s
      = (mkState w2 ((heap s ++ [d]) ++ [dict_of_members members]) (trace s ++ t),
         Ok (Some products)) ∧
    calls t = [ Call_fetch_webpage url; Call_extract_products doc c n p;
                Call_ask_ai_to_fix doc (length (heap s)) error;
                Call_extract_products doc c' n' p' ] ∧
    last (console t)
      = Some ("SUCCESS! Found " +:+ PyStr.of_nat (length products) +:+ " products!"))
    as (t & Hrun & Hcalls & Hlast).
  { rewrite Hrun. cbn [fst snd world]. by rewrite events_since_app. }
  eexists. split.
  - unfold run_agent. rewrite !run_bind_print.
    erewrite run_bind_Ok by (by apply dict_copy_Some).
    rewrite py_range_cons by lia. cbn [for_attempt world heap trace].
    erewrite run_bind_Ok; cycle 1.
    { unfold attempt_body. rewrite !run_bind_print. cbn [world heap trace].
      erewrite run_bind_Ok; cycle 1.
      { apply run_try_except_Ok.
        erewrite run_bind_Ok; [reflexivity|].
        rewrite fetch_webpage_run. cbn [world heap trace]. by rewrite Hdoc. }
      cbn [world heap trace fst].
      erewrite !run_bind_getitem by (done || apply lookup_new).
      erewrite run_bind_Ok by (rewrite extract_products_run, Hfail; reflexivity).
      cbv beta iota. rewrite run_bind_print. cbn [world heap trace].
      assert ((1 <? m) = true) as -> by lia.
      erewrite run_bind_Ok; [reflexivity|].
      apply run_try_except_Ok.
      erewrite run_bind_Ok; cycle 1.
      { eapply (ask_ai_to_fix_stores doc (length (heap s)) error _ c n p w1 w2 text);
          [|exact Hclient|exact Hanswer|exact Hv|exact Hc'|exact Hn'|exact Hp'].
        exists d. split; [apply lookup_new|done]. }
      rewrite run_bind_print. reflexivity. }
    cbn [world heap trace length].
    rewrite py_range_cons by lia. cbn [for_attempt].
    erewrite run_bind_Ok; cycle 1.
    { unfold attempt_body. rewrite !run_bind_print. cbn [world heap trace].
      erewrite run_bind_Ok by reflexivity.
      rewrite length_app. cbn [length].
      replace (length (heap s) + 1)%nat with (length (heap s ++ [d])) by (rewrite length_app; done).
      erewrite !run_bind_getitem by (done || apply lookup_new).
      erewrite run_bind_Ok by (rewrite extract_products_run, Hx; reflexivity).
      destruct products as [|product rest]; [done|].
      rewrite run_bind_print. reflexivity. }
    cbn [world heap trace]. rewrite <- !app_assoc. reflexivity.
  - split.
    + rewrite !calls_app, !calls_cons, !calls_prints. reflexivity.
    + rewrite !app_assoc. apply last_console_snoc.
Qed.

(** ** Where results and repairs come from *)

Lemma calls_nil : calls [] = [].
Proof. reflexivity. Qed.

(** Entries in which the repairs follow failures can be put one after
    the other when the second sequence does not depend on what is
    before it. *)
Lemma repairs_follow_failures_app prev (l1 l2 : list event) :
  repairs_follow_failures prev l1 ->
  (forall prev', repairs_follow_failures prev' l2) ->
  repairs_follow_failures prev (l1 ++ l2).
Proof.
  intros H1 H2. revert prev H1. induction l1 as [|e l1 IH]; intros prev H1; [apply H2|].
  destruct H1 as [He H1]. split; [exact He|]. by apply IH.
Qed.

Ltac print_step Hadv s' Hw :=
  apply wp_bind; eapply wp_print_from; [exact Hadv|]; clear Hadv; intros s' Hadv Hw.

Ltac origin_leaf Hadv :=
  eexists; split; [exact Hadv|]; split;
  [ intros ?; rewrite ?calls_app, ?calls_cons, ?calls_prints, ?calls_nil;
    cbn [app repairs_follow_failures]; repeat split; try done
  | try done ].

Ltac origin_getitem Hadv :=
  apply wp_bind, wp_getitem;
  match goal with |- context [(getitem ?r ?k ?s).2] =>
    destruct (getitem r k s).2 as [?v|?e] end; [|origin_leaf Hadv].

Ltac origin_steps Hadv :=
  let x := fresh "exc" in
  let sa := fresh "sa" in let sb := fresh "sb" in let sc := fresh "sc" in
  let sd := fresh "sd" in let Hwa := fresh "Hwa" in let Hwb := fresh "Hwb" in
  let Hx := fresh "Hx" in
  origin_getitem Hadv; origin_getitem Hadv; origin_getitem Hadv;
  apply wp_bind; eapply wp_extract_products_from; [exact Hadv|]; clear Hadv; intros sa Hadv;
  match goal with |- context [extraction ?h ?c ?n ?p] =>
    destruct (extraction h c n p) as [[[[|? ?]|] ?]|?] eqn:Hx end;
  [ by apply extraction_products in Hx as [? _]
  | apply extraction_products in Hx as Hy; destruct Hy as (_ & -> & _);
    print_step Hadv sb Hwa; apply wp_ret; origin_leaf Hadv;
    split; [eauto 10 | apply last_console_snoc]
  |
  | origin_leaf Hadv ];
  (print_step Hadv sb Hwa; apply wp_bind;
   match goal with |- context [?a <? ?b] => destruct (a <? b) end;
   [ apply wp_try_except, wp_bind; eapply wp_ask_ai_to_fix_from; [exact Hadv|];
     clear Hadv; intros sc ? Hadv _;
     match goal with |- context [(ask_ai_to_fix ?h ?r ?e ?s).2] =>
       destruct (ask_ai_to_fix h r e s).2 as [?|x] end;
     [ | destruct (is_Exception x); [|origin_leaf Hadv] ];
     print_step Hadv sd Hwb; apply wp_ret, wp_ret; origin_leaf Hadv
   | apply wp_ret, wp_ret; origin_leaf Hadv ]).

(** One attempt: what it returns is what the Extractor gave on the
    document, and the oracle is asked only about a failure. *)
Lemma attempt_body_origin attempt url m cur html s :
  wp (attempt_body attempt url m cur html)
     (fun o s' => exists t,
        advances s s' t ∧ (forall prev, repairs_follow_failures prev (calls t)) ∧
        match o with
        | Ok (Return (Some products)) =>
            (exists doc c n p, cached url html s = Some doc ∧
                               extraction doc c n p = Ok (Some products, None)) ∧
            last (console t)
              = Some ("SUCCESS! Found " +:+ PyStr.of_nat (length products) +:+ " products!")
        | Ok (Next _ html') => html' = cached url html s ∧ is_Some html'
        | _ => True
        end) s.
Proof.
  pose proof (advances_refl s) as Hadv. unfold attempt_body.
  print_step Hadv s1 Hw1. print_step Hadv s2 Hw2. print_step Hadv s3 Hw3.
  rewrite Hw2, Hw1 in Hw3. clear Hw1 Hw2 s1 s2.
  apply wp_bind.
  destruct html as [text|].
  - apply wp_ret. cbn [cached]. origin_steps Hadv.
  - apply wp_try_except, wp_bind.
    eapply wp_fetch_webpage_from; [exact Hadv|]; clear Hadv; intros s4 Hadv.
    unfold cached, response. rewrite Hw3.
    destruct (requests_get url (world s)).2 as [text|e].
    + apply wp_ret. origin_steps Hadv.
    + destruct (is_Exception e); [|origin_leaf Hadv].
      print_step Hadv s5 Hw. apply wp_ret, wp_ret. origin_leaf Hadv.
Qed.

Lemma for_attempt_origin attempts url m cur html s :
  wp (for_attempt attempts url m cur html)
     (fun o s' => exists t,
        advances s s' t ∧ (forall prev, repairs_follow_failures prev (calls t)) ∧
        match o with
        | Ok (Some products) =>
            (exists doc c n p, cached url html s = Some doc ∧
                               extraction doc c n p = Ok (Some products, None)) ∧
            last (console t)
              = Some ("SUCCESS! Found " +:+ PyStr.of_nat (length products) +:+ " products!")
        | _ => True
        end) s.
Proof.
  revert cur html s. induction attempts as [|attempt rest IH]; intros cur html s.
  - pose proof (advances_refl s) as Hadv. cbn [for_attempt].
    print_step Hadv s1 Hw. apply wp_ret. origin_leaf Hadv.
  - cbn [for_attempt]. apply wp_bind.
    eapply wp_mono; [apply attempt_body_origin|].
    intros o s1 (t1 & Hadv1 & Hf1 & Hout).
    destruct o as [[result|cur' html']|e].
    + apply wp_ret. exists t1. by destruct result.
    + destruct Hout as [-> [doc Hdoc]].
      eapply wp_mono; [apply IH|].
      intros o s2 (t2 & Hadv2 & Hf2 & Hout2). rewrite Hdoc in Hout2. cbn [cached] in Hout2.
      exists (t1 ++ t2). split; [by eapply advances_trans|]. split.
      { intros prev. rewrite calls_app. by apply repairs_follow_failures_app. }
      destruct o as [[products|]|]; [|done..].
      destruct Hout2 as [(doc' & c & n & p & [= <-] & Hx) Hlast].
      split; [by exists doc, c, n, p|]. rewrite console_app. by apply last_app_Some.
    + by exists t1.
Qed.

Lemma run_agent_origin url init m s :
  exists t,
    advances s (run_agent url init m s).1 t ∧
    (forall prev, repairs_follow_failures prev (calls t)) ∧
    match (run_agent url init m s).2 with
    | Ok (Some products) =>
        (exists doc c n p, response url (world s) = Some doc ∧
                           extraction doc c n p = Ok (Some products, None)) ∧
        last (console t)
          = Some ("SUCCESS! Found " +:+ PyStr.of_nat (length products) +:+ " products!")
    | _ => True
    end.
Proof.
  change (wp (run_agent url init m) (fun o s' => exists t,
    advances s s' t ∧ (forall prev, repairs_follow_failures prev (calls t)) ∧
    match o with
    | Ok (Some products) =>
        (exists doc c n p, response url (world s) = Some doc ∧
                           extraction doc c n p = Ok (Some products, None)) ∧
        last (console t)
          = Some ("SUCCESS! Found " +:+ PyStr.of_nat (length products) +:+ " products!")
    | _ => True
    end) s).
  pose proof (advances_refl s) as Hadv. unfold run_agent.
  print_step Hadv s1 Hw1. print_step Hadv s2 Hw2.
  print_step Hadv s3 Hw3. print_step Hadv s4 Hw4.
  rewrite Hw3, Hw2, Hw1 in Hw4. clear Hw1 Hw2 Hw3 s1 s2 s3.
  apply wp_bind. eapply wp_dict_copy_from; [exact Hadv| |origin_leaf Hadv].
  intros s5 cur Hadv5 Hw5. rewrite Hw4 in Hw5.
  eapply wp_mono; [apply for_attempt_origin|].
  intros o s6 (t & Hadv6 & Hf & Hout).
  unfold cached in Hout. rewrite Hw5 in Hout.
  eexists. split; [by eapply advances_trans|]. split.
  - intros prev. rewrite calls_app. apply repairs_follow_failures_app; [|done].
    by rewrite ?calls_app, ?calls_cons, ?calls_prints, ?calls_nil.
  - destruct o as [[products|]|]; [|done..].
    destruct Hout as [Hx Hlast]. split; [done|].
    rewrite console_app. by apply last_app_Some.
Qed.

(** X18. Whatever products a run returns are what the Extractor gives on
    the fetched document under some rule, and the run ends there: the
    last line printed is the success line with their number. *)
Theorem run_agent_result_origin url init m s :
  match (run_agent url init m s).2 with
  | Ok (Some products) =>
      (exists doc c n p, response url (world s) = Some doc ∧
                         extraction doc c n p = Ok (Some products, None)) ∧
      last (console (events_since s (run_agent url init m s).1))
        = Some ("SUCCESS! Found " +:+ PyStr.of_nat (length products) +:+ " products!")
  | _ => True
  end.
Proof.
  destruct (run_agent_origin url init m s) as (t & Hadv & _ & Hout).
  by rewrite (events_since_advances _ _ _ Hadv).
Qed.

(** X19. In the function entries of a run every entry into the oracle
    adapter comes right after an entry into the Extractor: an
    extraction of the same document that failed, for the reason the
    adapter is given. *)
Theorem run_agent_asks_after_failure url init m s :
  repairs_follow_failures None (calls (events_since s (run_agent url init m s).1)).
Proof.
  destruct (run_agent_origin url init m s) as (t & Hadv & Hf & _).
  rewrite (events_since_advances _ _ _ Hadv). apply Hf.
Qed.

(** ** What reaches the caller *)








(** ** When the oracle adapter fails *)

(** C1, as the code has it.  When the oracle adapter raises after a
    failed extraction, at an attempt that is not the last, the loop
    does not give up: for an exception of a class under [Exception] it
    prints that the oracle could not help and goes on with the attempts
    that are left, with the rule and the document it has; an exception
    of another class reaches the caller.  This holds at every attempt
    and for every current rule, also one that an earlier repair
    proposed. *)
Theorem for_attempt_oracle_failure attempt rest url m (cur : nat) html doc c n p error e s s1 :
  attempt < m ->
  cached url html s = Some doc ->
  rule_at cur c n p s ->
  extraction doc c n p = Ok (None, error) ->
  ask_ai_to_fix doc cur error (before_repair attempt url m html doc c n p error s)
    = (s1, Raise e) ->
  for_attempt (attempt :: rest) url m cur html s =
    if is_Exception e
    then for_attempt rest url m cur (Some doc)
           (mkState (world s1) (heap s1)
              (trace s1 ++ [Print ("AI couldn't help: " +:+ exn_str e)]))
    else (s1, Raise e).
Proof.
  intros Hm Hdoc (d & Hd & Hc & Hn & Hp) Hx Hask. unfold before_repair in Hask.
  assert (Hbody : attempt_body attempt url m cur html s =
    if is_Exception e
    then (mkState (world s1) (heap s1)
            (trace s1 ++ [Print ("AI couldn't help: " +:+ exn_str e)]),
          Ok (Next cur (Some doc)))
    else (s1, Raise e)).
  { unfold attempt_body. rewrite !run_bind_print. cbn [world heap trace].
    assert (Hfetched :
      forall B (f : string + option (list Product) -> M B) t0,
        (match html with
         | None =>
             try_except
               (text ← fetch_webpage url; mret (inl text))
               (fun e =>
                  print ("Couldn't fetch webpage: " +:+ exn_str e);;
                  mret (inr None))
         | Some text => mret (inl text)
         end ≫= f) (mkState (world s) (heap s) t0)
        = f (inl doc)
            (mkState (if html is Some _ then world s else (requests_get url (world s)).1)
               (heap s)
               (t0 ++ (if html is Some _ then []
                       else [ Call_fetch_webpage url; Print ("Fetching: " +:+ url) ])))).
    { intros B f t0. destruct html as [text|].
      - injection Hdoc as ->. erewrite run_bind_Ok by reflexivity. by rewrite app_nil_r.
      - unfold cached, response in Hdoc.
        destruct (requests_get url (world s)).2 as [text|] eqn:Hget; [|done].
        injection Hdoc as ->. erewrite run_bind_Ok; [reflexivity|].
        apply run_try_except_Ok. erewrite run_bind_Ok; [reflexivity|].
        rewrite fetch_webpage_run. cbn [world heap trace]. by rewrite Hget. }
    rewrite Hfetched. erewrite !run_bind_getitem by done.
    erewrite run_bind_Ok by (rewrite extract_products_run, Hx; reflexivity).
    cbv beta iota. rewrite run_bind_print. cbn [world heap trace].
    assert ((attempt <? m) = true) as -> by lia.
    match goal with |- (_ ≫= _) ?s0 = _ =>
      replace s0 with
        (mkState (if html is Some _ then world s else (requests_get url (world s)).1)
           (heap s)
           (trace s
            ++ (Print <$> [ ""; "ATTEMPT " +:+ PyStr.of_Z attempt +:+ " of "
                                  +:+ PyStr.of_Z m;
                            PyStr.repeat "-" 30 ])
            ++ (if html is Some _ then []
                else [ Call_fetch_webpage url; Print ("Fetching: " +:+ url) ])
            ++ Call_extract_products doc c n p :: (Print <$> extract_lines doc c)
            ++ [ Print ("Failed: " +:+ PyStr.of_option error) ]))
        by (f_equal; cbn [fmap list_fmap]; rewrite <- !app_assoc; reflexivity) end.
    destruct (is_Exception e) eqn:He.
    - erewrite run_bind_Ok; [reflexivity|].
      erewrite run_try_Raise; [|eapply run_bind_Raise; exact Hask|exact He].
      by rewrite run_bind_print.
    - eapply run_bind_Raise.
      eapply run_try_escape; [eapply run_bind_Raise; exact Hask|exact He]. }
  cbn [for_attempt]. destruct (is_Exception e).
  - by erewrite run_bind_Ok by exact Hbody.
  - by erewrite run_bind_Raise by exact Hbody.
Qed.

(** ** The script *)

Lemma for_product_run i (products : list Product) s :
  for_product i products s =
    (mkState (world s) (heap s)
       (trace s ++ (Print <$> imap (fun k product =>
                      PyStr.of_Z (Z.of_nat k + i) +:+ ". " +:+ Product_str product) products)),
     Ok tt).
Proof.
  revert i s. induction products as [|product rest IH]; intros i s.
  - cbn. rewrite app_nil_r. by destruct s.
  - cbn [for_product]. rewrite run_bind_print, IH. cbn [world heap trace].
    rewrite imap_cons, fmap_cons, <- app_assoc. cbn [app].
    rewrite (imap_ext _ ((fun k product0 => PyStr.of_Z (Z.of_nat k + i) +:+ ". "
                                             +:+ Product_str product0) ∘ S) rest); [done|].
    intros k product' _. cbn. do 2 f_equal. lia.
Qed.

Lemma main_without_key_run api_key s :
  truthy api_key = false ->
  main api_key s =
    (mkState (world s) (heap s)
       (trace s ++ (Print <$> [ ""; "NO API KEY FOUND!"; ""; "To use this agent:";
                  "1. Go to: https://console.anthropic.com/";
                  "2. Sign up and create an API key"; "3. In your terminal, run:"; "";
                  "   set ANTHROPIC_API_KEY=your-key-here"; "";
                  "4. Then run: python agent.py"; "" ])),
     Ok tt).
Proof.
  intros Hkey. unfold main. rewrite Hkey. cbn [negb].
  rewrite !run_bind_print. cbn [world heap trace].
  unfold print, emit. cbn [fst snd world heap trace].
  by rewrite <- !app_assoc.
Qed.

(** X20. Without an API key, unset or empty, the script prints its twelve
    lines of instructions and does nothing else: no fetch, no
    extraction, no oracle, no mapping made. *)
Theorem main_without_key api_key s :
  truthy api_key = false ->
  (main api_key s).2 = Ok tt ∧
  events_since s (main api_key s).1
    = Print <$> [ ""; "NO API KEY FOUND!"; ""; "To use this agent:";
                  "1. Go to: https://console.anthropic.com/";
                  "2. Sign up and create an API key"; "3. In your terminal, run:"; "";
                  "   set ANTHROPIC_API_KEY=your-key-here"; "";
                  "4. Then run: python agent.py"; "" ] ∧
  world (main api_key s).1 = world s ∧
  heap (main api_key s).1 = heap s.
Proof.
  intros Hkey. rewrite main_without_key_run by done.
  cbn [fst snd world heap]. by rewrite events_since_app.
Qed.

(** The state in which the script starts the run: its mapping is the
    newest object of the store. *)
Lemma main_with_key api_key s :
  truthy api_key = true ->
  main api_key s =
    let r := run_agent books_url (length (heap s)) 3
               (mkState (world s) (heap s ++ [books_selectors]) (trace s)) in
    match r.2 with
    | Ok result =>
        (mkState (world r.1) (heap r.1) (trace r.1 ++ (Print <$> report result)), Ok tt)
    | Raise x => (r.1, Raise x)
    end.
Proof.
  intros Hkey. unfold main. rewrite Hkey. cbn [negb].
  rewrite run_bind_new_dict. unfold run_agent_default, mbind at 1, M_bind at 1.
  cbv zeta. destruct (run_agent _ _ _ _) as [s1 [result|x]]; cbn [fst snd]; [|done].
  destruct result as [[|product rest]|]; cbn [report];
    [by rewrite fmap_nil, app_nil_r; destruct s1| |by rewrite fmap_nil, app_nil_r; destruct s1].
  rewrite !run_bind_print, for_product_run. cbn [world heap trace].
  by rewrite fmap_app, <- !app_assoc.
Qed.

Lemma length_product_lines products : (length (product_lines products) <= 10)%nat.
Proof.
  unfold product_lines. rewrite length_imap, length_take. lia.
Qed.

(** X21. With an API key the script runs the agent once, on the books
    address, with a new mapping of the three selectors of the script
    and the default budget of three attempts.  When the run returns,
    the script ends normally after printing its report: for a non-empty
    result the three header lines and the first ten products, numbered
    from 1; for no result, nothing.  Its mapping is as it was made. *)
Theorem main_reports api_key s result :
  truthy api_key = true ->
  (run_agent books_url (length (heap s)) 3
     (mkState (world s) (heap s ++ [books_selectors]) (trace s))).2 = Ok result ->
  (main api_key s).2 = Ok tt ∧
  events_since s (main api_key s).1
    = events_since s (run_agent books_url (length (heap s)) 3
                        (mkState (world s) (heap s ++ [books_selectors]) (trace s))).1
      ++ (Print <$> report result) ∧
  (length (report result) <= 13)%nat ∧
  heap (main api_key s).1 !! length (heap s) = Some books_selectors.
Proof.
  intros Hkey Hres. rewrite main_with_key by done. cbv zeta.
  set (s0 := mkState (world s) (heap s ++ [books_selectors]) (trace s)) in *.
  destruct (run_agent_advances books_url (length (heap s)) 3 s0) as (t & [Ht Hh] & _).
  rewrite Hres. cbn [fst snd heap]. split; [done|]. split; [|split].
  - unfold events_since. cbn [trace]. rewrite Ht. cbn [trace].
    by rewrite <- app_assoc, !drop_app_length.
  - destruct result as [[|product rest]|]; cbn [report length]; [lia| |lia].
    rewrite length_app. pose proof (length_product_lines (product :: rest)). cbn [length]. lia.
  - eapply prefix_lookup_Some; [|exact Hh]. apply lookup_new.
Qed.

(** X22. Whatever the environment holds, a run of the script fetches at
    most once, enters the Extractor at most three times and the oracle
    adapter at most twice, always on the document the books address
    answered with, and leaves every mapping that existed as it was. *)
Theorem main_call_bounds api_key s :
  (fetch_calls (events_since s (main api_key s).1) <= 1)%nat ∧
  (extractor_calls (events_since s (main api_key s).1) <= 3)%nat ∧
  (oracle_calls (events_since s (main api_key s).1) <= 2)%nat ∧
  Forall (uses_document (response books_url (world s))) (events_since s (main api_key s).1) ∧
  heap s `prefix_of` heap (main api_key s).1.
Proof.
  destruct (truthy api_key) eqn:Hkey.
  - rewrite main_with_key by done. cbv zeta.
    set (s0 := mkState (world s) (heap s ++ [books_selectors]) (trace s)).
    destruct (run_agent_advances books_url (length (heap s)) 3 s0)
      as (t & [Ht Hh] & (Hf & Hx & Ho & Hd) & _).
    assert (Hpre : heap s `prefix_of` heap (run_agent books_url (length (heap s)) 3 s0).1).
    { etrans; [|exact Hh]. by apply prefix_app_r. }
    change (Z.to_nat 3) with 3%nat in Hx. change (Z.to_nat (3 - 1)) with 2%nat in Ho.
    cbn [trace s0] in Ht. cbn [world s0] in Hd.
    destruct (run_agent books_url (length (heap s)) 3 s0) as [s1 [result|x]];
      cbn [fst snd] in *; unfold events_since; cbn [trace heap]; rewrite Ht.
    + rewrite <- app_assoc, drop_app_length. count_simpl.
      unfold fetch_calls, extractor_calls, oracle_calls in Hf, Hx, Ho.
      split; [lia|]. split; [lia|]. split; [lia|]. split; [|done].
      apply Forall_app_2; [done|apply uses_document_prints].
    + by rewrite drop_app_length.
  - rewrite main_without_key_run by done. cbn [fst snd heap].
    rewrite events_since_app. count_simpl.
    split; [lia|]. split; [lia|]. split; [lia|]. split; [apply uses_document_prints|done].
Qed.

End More.

(** * The agent in the fake environment *)

(** ** The scenarios of the specification *)

(** All containers resolve: records on the first attempt, no repair. *)
Example first_attempt_succeeds :
  let r := run_agent (libs := Fake.libraries) "https://shop.test/" 0%nat 3
             (Fake.start [] (Fake.selectors ".product" ".name" ".price")) in
  r.2 = Ok (Some [mkProduct "Tea" "3.50"; mkProduct "Mug" "7.00"]) ∧
  extractor_calls (trace r.1) = 1%nat ∧ oracle_calls (trace r.1) = 0%nat.
Proof. vm_compute. done. Qed.

(** The container locator matches nothing; the oracle's fenced answer is
    stripped and parsed, and the second attempt succeeds.  The store then
    holds the caller's mapping, its copy and the repaired rule. *)
Example repaired_on_second_attempt :
  let answer := "```json" +:+ PyStr.nl +:+ Fake.good_answer +:+ PyStr.nl +:+ "```" in
  let r := run_agent (libs := Fake.libraries) "https://shop.test/" 0%nat 3
             (Fake.start [Ok answer] (Fake.selectors ".item" ".name" ".price")) in
  r.2 = Ok (Some [mkProduct "Tea" "3.50"; mkProduct "Mug" "7.00"]) ∧
  extractor_calls (trace r.1) = 2%nat ∧ oracle_calls (trace r.1) = 1%nat ∧
  heap r.1 = [ Fake.selectors ".item" ".name" ".price";
               Fake.selectors ".item" ".name" ".price";
               Fake.selectors ".product" ".name" ".price" ].
Proof. vm_compute. done. Qed.

(** Every extraction fails and every repair gives a rule that still
    fails: three Extractor invocations, two of the oracle. *)
Example budget_exhausted :
  let r := run_agent (libs := Fake.libraries) "https://blank.test/" 0%nat 3
             (Fake.start [Ok Fake.good_answer; Ok Fake.good_answer; Ok Fake.good_answer]
                (Fake.selectors ".item" ".name" ".price")) in
  r.2 = Ok None ∧
  extractor_calls (trace r.1) = 3%nat ∧ oracle_calls (trace r.1) = 2%nat.
Proof. vm_compute. done. Qed.

(** A name element with empty text counts as a missing field: the
    only container is skipped and the extraction fails. *)
Example blank_name_is_missing :
  (extract_products (libs := Fake.libraries) "<blank>"
     (JString ".product") (JString ".name") (JString ".price") (Fake.start [] ∅)).2
    = Ok (None, Some "Found containers but couldn't extract name/price") ∧
  Fake.select_one (Fake.product "" "1.00") (JString ".name") = Ok (Some (Fake.Tag ".name" "" [])).
Proof. vm_compute. done. Qed.

(** An interrupt from the keyboard during the download is not a fetch
    failure: [except Exception] does not catch it, no failure line is
    printed and the exception reaches the caller. *)
Example interrupt_reaches_caller :
  let r := run_agent (libs := Fake.interrupted) "https://shop.test/" 0%nat 3
             (Fake.start [] (Fake.selectors ".product" ".name" ".price")) in
  r.2 = Raise (BaseException "KeyboardInterrupt" "") ∧
  console (trace r.1)
    = [ ""; PyStr.repeat "=" 50; "ADAPTIVE SCRAPER AGENT STARTING"; PyStr.repeat "=" 50;
        ""; "ATTEMPT 1 of 3"; PyStr.repeat "-" 30; "Fetching: https://shop.test/" ].
Proof. vm_compute. done. Qed.

(** [strip()] removes whitespace outside ASCII as well, and [s[:n]]
    counts characters, not bytes. *)
Example strings_are_text :
  PyStr.strip (Fake.nbsp +:+ " {} " +:+ PyStr.nl +:+ Fake.nbsp) = "{}" ∧
  PyStr.take 2 (Fake.nbsp +:+ "ab") = Fake.nbsp +:+ "a" ∧
  PyStr.len (Fake.nbsp +:+ "ab") = 3%nat.
Proof. vm_compute. done. Qed.

(** ** Where the code differs from the specification *)

(** C4 does not hold as stated when a field is present as soon as an
    element matches its locator, which is how the specification defines
    presence.  The only container of the blank document has a name
    element and a price element, but the text of the name element is
    empty: no record is made of it and the extraction fails. *)
Lemma present_fields_with_empty_text :
  let container := Fake.product "" "1.00" in
  Fake.soup_select "<blank>" (JString ".product") = Ok [container] ∧
  Fake.select_one container (JString ".name") = Ok (Some (Fake.Tag ".name" "" [])) ∧
  Fake.select_one container (JString ".price") = Ok (Some (Fake.Tag ".price" "1.00" [])) ∧
  (extract_products (libs := Fake.libraries) "<blank>"
     (JString ".product") (JString ".name") (JString ".price") (Fake.start [] ∅)).2
    = Ok (None, Some "Found containers but couldn't extract name/price").
Proof. vm_compute. done. Qed.

(** C1 does not hold as stated.  The rule never matches and both answers
    of the oracle are malformed (both are consumed, no repair succeeds),
    yet the run does not end at attempt 1 with one oracle invocation: it
    makes all three attempts and invokes the oracle twice. *)
Lemma malformed_proposal_does_not_end_run :
  let r := run_agent (libs := Fake.libraries) "https://shop.test/" 0%nat 3
             (Fake.start [Ok "I am not sure."; Ok "Please try again."]
                (Fake.selectors ".item" ".name" ".price")) in
  r.2 = Ok None ∧
  world r.1 = [] ∧
  printed "Retrying with new selectors..." (trace r.1) = false ∧
  printed "AI couldn't help: Expecting value: line 1 column 1 (char 0)" (trace r.1) = true ∧
  extractor_calls (trace r.1) = 3%nat ∧
  oracle_calls (trace r.1) = 2%nat ∧
  printed "ATTEMPT 3 of 3" (trace r.1) = true ∧
  ~ (extractor_calls (trace r.1) = 1%nat ∧ oracle_calls (trace r.1) = 1%nat).
Proof.
  vm_compute. repeat split; try reflexivity.
  intros [H _]. discriminate H.
Qed.


(** C5 does not hold as stated.  Two container locators match nothing in
    the same document and the reason returned is the same for both: the
    reason does not carry the locator that was tried. *)
Lemma no_containers_reason_omits_locator :
  let s := Fake.start [] ∅ in
  let a := extract_products (libs := Fake.libraries) "<shop>"
             (JString ".item") (JString ".name") (JString ".price") s in
  let b := extract_products (libs := Fake.libraries) "<shop>"
             (JString ".card") (JString ".name") (JString ".price") s in
  Fake.soup_select "<shop>" (JString ".item") = Ok [] ∧
  Fake.soup_select "<shop>" (JString ".card") = Ok [] ∧
  a.2 = Ok (None, Some "No containers found with that selector") ∧
  b.2 = a.2 ∧
  ~ exists locator_of : outcome (option (list Product) * option string) -> json,
      locator_of a.2 = JString ".item" ∧ locator_of b.2 = JString ".card".
Proof.
  vm_compute. repeat split; try reflexivity.
  intros (locator_of & Ha & Hb). rewrite Ha in Hb. discriminate Hb.
Qed.

(** C6 does not hold as stated.  One document has two containers and no
    name element, another has one container and no price element; the
    reason returned is the same for both: it carries neither the number
    of containers nor which selector found nothing. *)
Lemma no_fields_reason_omits_details :
  let s := Fake.start [] ∅ in
  let a := extract_products (libs := Fake.libraries) "<unnamed>"
             (JString ".product") (JString ".name") (JString ".price") s in
  let b := extract_products (libs := Fake.libraries) "<unpriced>"
             (JString ".product") (JString ".name") (JString ".price") s in
  Fake.soup_select "<unnamed>" (JString ".product") = Ok (Fake.parse "<unnamed>") ∧
  length (Fake.parse "<unnamed>") = 2%nat ∧
  Fake.soup_select "<unpriced>" (JString ".product") = Ok (Fake.parse "<unpriced>") ∧
  length (Fake.parse "<unpriced>") = 1%nat ∧
  a.2 = Ok (None, Some "Found containers but couldn't extract name/price") ∧
  b.2 = a.2 ∧
  ~ exists count_of : outcome (option (list Product) * option string) -> nat,
      count_of a.2 = 2%nat ∧ count_of b.2 = 1%nat.
Proof.
  vm_compute. repeat split; try reflexivity.
  intros (count_of & Ha & Hb). rewrite Ha in Hb. discriminate Hb.
Qed.

(** ** The theorems with hypotheses, at concrete inputs *)

Ltac forall_containers :=
  repeat first [ apply Forall_nil_2 | apply Forall_cons_2 | split | reflexivity ].

(** C4 on the shop document: three containers match, the second has no
    price and is skipped. *)
Lemma extract_products_records_shop :
  (extract_products (libs := Fake.libraries) "<shop>"
     (JString ".product") (JString ".name") (JString ".price") (Fake.start [] ∅)).2
    = Ok (Some [mkProduct "Tea" "3.50"; mkProduct "Mug" "7.00"], None).
Proof.
  apply (extract_products_records (libs := Fake.libraries) "<shop>"
           (JString ".product") (JString ".name") (JString ".price")
           [ Fake.product "Tea" "3.50"; Fake.Tag ".product" "" [Fake.Tag ".name" "Unpriced" []];
             Fake.product "Mug" "7.00" ]
           (Fake.start [] ∅)).
  - reflexivity.
  - forall_containers.
  - apply Exists_cons_hd. reflexivity.
Defined.

(** C5 on the shop document with a locator that matches nothing. *)
Lemma extract_products_no_containers_shop :
  (extract_products (libs := Fake.libraries) "<shop>"
     (JString ".item") (JString ".name") (JString ".price") (Fake.start [] ∅)).2
    = Ok (None, Some "No containers found with that selector").
Proof.
  apply (extract_products_no_containers (libs := Fake.libraries) "<shop>"
           (JString ".item") (JString ".name") (JString ".price") (Fake.start [] ∅)).
  reflexivity.
Defined.

(** C6 on the document whose two containers have no name element. *)
Lemma extract_products_no_fields_unnamed :
  (extract_products (libs := Fake.libraries) "<unnamed>"
     (JString ".product") (JString ".name") (JString ".price") (Fake.start [] ∅)).2
    = Ok (None, Some "Found containers but couldn't extract name/price").
Proof.
  apply (extract_products_no_fields (libs := Fake.libraries) "<unnamed>"
           (JString ".product") (JString ".name") (JString ".price")
           (Fake.parse "<unnamed>") (Fake.start [] ∅)).
  - reflexivity.
  - discriminate.
  - forall_containers.
  - forall_containers.
Defined.

(** C7 on a host that cannot be reached. *)
Lemma run_agent_fetch_failure_unreachable :
  (run_agent (libs := Fake.libraries) "https://down.test/" 0%nat 3
     (Fake.start [] (Fake.selectors ".product" ".name" ".price"))).2 = Ok None.
Proof.
  apply (run_agent_fetch_failure (libs := Fake.libraries) "https://down.test/" 0%nat 3
           (Fake.selectors ".product" ".name" ".price")
           (Exception "ConnectionError" "unreachable")
           (Fake.start [] (Fake.selectors ".product" ".name" ".price"))).
  - lia.
  - reflexivity.
  - reflexivity.
  - reflexivity.
Defined.

(** C10 on the shop. *)
Lemma run_agent_zero_attempts_shop :
  (run_agent (libs := Fake.libraries) "https://shop.test/" 0%nat 0
     (Fake.start [] (Fake.selectors ".product" ".name" ".price"))).2 = Ok None.
Proof.
  apply (run_agent_zero_attempts (libs := Fake.libraries) "https://shop.test/" 0%nat
           (Fake.selectors ".product" ".name" ".price")
           (Fake.start [] (Fake.selectors ".product" ".name" ".price"))).
  reflexivity.
Defined.

(** C1 at the second of three attempts, on the rule an earlier repair
    proposed: that rule fails on the blank document, the oracle's answer
    cannot be parsed, and the loop goes on to the third attempt with the
    same rule before it gives up. *)
Lemma for_attempt_oracle_failure_after_repair :
  let s := mkState [Ok "I am not sure."]
             [ Fake.selectors ".item" ".name" ".price";
               Fake.selectors ".item" ".name" ".price";
               Fake.selectors ".product" ".name" ".price" ] [] in
  let r := for_attempt (libs := Fake.libraries) [2; 3] "https://blank.test/" 3 2%nat
             (Some "<blank>") s in
  r.2 = Ok None ∧
  extractor_calls (trace r.1) = 2%nat ∧ oracle_calls (trace r.1) = 1%nat ∧
  Forall (uses_rule "<blank>" (JString ".product") (JString ".name") (JString ".price"))
         (trace r.1) ∧
  printed "AI couldn't help: Expecting value: line 1 column 1 (char 0)" (trace r.1) = true.
Proof.
  cbv zeta.
  rewrite (for_attempt_oracle_failure (libs := Fake.libraries) 2 [3] "https://blank.test/" 3
             2%nat (Some "<blank>") "<blank>"
             (JString ".product") (JString ".name") (JString ".price")
             (Some "Found containers but couldn't extract name/price")
             (Exception "JSONDecodeError" "Expecting value: line 1 column 1 (char 0)")
             (mkState [Ok "I am not sure."]
                [ Fake.selectors ".item" ".name" ".price";
                  Fake.selectors ".item" ".name" ".price";
                  Fake.selectors ".product" ".name" ".price" ] [])
             (ask_ai_to_fix (libs := Fake.libraries) "<blank>" 2%nat
                (Some "Found containers but couldn't extract name/price")
                (before_repair (libs := Fake.libraries) 2 "https://blank.test/" 3
                   (Some "<blank>") "<blank>"
                   (JString ".product") (JString ".name") (JString ".price")
                   (Some "Found containers but couldn't extract name/price")
                   (mkState [Ok "I am not sure."]
                      [ Fake.selectors ".item" ".name" ".price";
                        Fake.selectors ".item" ".name" ".price";
                        Fake.selectors ".product" ".name" ".price" ] []))).1).
  - vm_compute. repeat split; try reflexivity. repeat constructor.
  - lia.
  - reflexivity.
  - exists (Fake.selectors ".product" ".name" ".price"). repeat split; reflexivity.
  - reflexivity.
  - vm_compute. reflexivity.
Defined.

(** ** The further properties on concrete inputs *)

(** An answer set between no-break spaces, with a fence mark inside its
    line: the parser is given the line alone. *)
Lemma strip_fences_keeps_inline :
  strip_fences (PyStr.strip (Fake.nbsp +:+ " Use ``` to open a fence. " +:+ Fake.nbsp))
    = "Use ``` to open a fence.".
Proof.
  rewrite (strip_fences_keeps (Fake.nbsp +:+ " Use ``` to open a fence. " +:+ Fake.nbsp)).
  - reflexivity.
  - vm_compute. repeat constructor.
Defined.

(** The fenced answer of the repair scenario. *)
Lemma strip_fences_unwraps_json :
  strip_fences (fence +:+ "json" +:+ PyStr.nl +:+ Fake.good_answer +:+ PyStr.nl +:+ fence)
    = Fake.good_answer.
Proof.
  apply (strip_fences_unwraps "json" Fake.good_answer).
  - reflexivity.
  - vm_compute. repeat constructor.
Defined.

(** A mapping with a container selector only: the adapter stops at
    ["name"] and the scripted answer is still there. *)
Lemma ask_ai_to_fix_incomplete_rule_container_only :
  ask_ai_to_fix (libs := Fake.libraries) "<shop>" 0%nat None
      (Fake.start [Ok Fake.good_answer] (<["container" := JString ".product"]> ∅))
    = (mkState [Ok Fake.good_answer] [<["container" := JString ".product"]> ∅]
         ([] ++ [ Call_ask_ai_to_fix "<shop>" 0%nat None;
                  Print "Asking AI to analyze the problem..." ]),
       Raise (key_error "name")).
Proof.
  apply (ask_ai_to_fix_incomplete_rule (libs := Fake.libraries) "<shop>" 0%nat None
           (Fake.start [Ok Fake.good_answer] (<["container" := JString ".product"]> ∅))
           (<["container" := JString ".product"]> ∅) "name" [Ok Fake.good_answer]);
    reflexivity.
Defined.

(** An answer in prose. *)
Lemma ask_ai_to_fix_unparsable_prose :
  (ask_ai_to_fix (libs := Fake.libraries) "<shop>" 0%nat None
     (Fake.start [Ok "I am not sure."] (Fake.selectors ".item" ".name" ".price"))).2
    = Raise (Exception "JSONDecodeError" "Expecting value: line 1 column 1 (char 0)").
Proof.
  rewrite (ask_ai_to_fix_unparsable (libs := Fake.libraries) "<shop>" 0%nat None
             (Fake.start [Ok "I am not sure."] (Fake.selectors ".item" ".name" ".price"))
             (JString ".item") (JString ".name") (JString ".price")
             [Ok "I am not sure."] [] "I am not sure."
             (ex_intro _ (Fake.selectors ".item" ".name" ".price")
                (conj eq_refl (conj eq_refl (conj eq_refl eq_refl))))
             eq_refl eq_refl
             (Exception "JSONDecodeError" "Expecting value: line 1 column 1 (char 0)")
             eq_refl).
  reflexivity.
Defined.

(** An answer that is a JSON array. *)
Lemma ask_ai_to_fix_not_an_object_array :
  (ask_ai_to_fix (libs := Fake.libraries) "<shop>" 0%nat None
     (Fake.start [Ok "[]"] (Fake.selectors ".item" ".name" ".price"))).2
    = Raise (Exception "TypeError" "list indices must be integers or slices, not str").
Proof.
  rewrite (ask_ai_to_fix_not_an_object (libs := Fake.libraries) "<shop>" 0%nat None
             (Fake.start [Ok "[]"] (Fake.selectors ".item" ".name" ".price"))
             (JString ".item") (JString ".name") (JString ".price")
             [Ok "[]"] [] "[]"
             (ex_intro _ (Fake.selectors ".item" ".name" ".price")
                (conj eq_refl (conj eq_refl (conj eq_refl eq_refl))))
             eq_refl eq_refl (JArray []) eq_refl).
  - reflexivity.
  - intros members H. discriminate H.
Defined.

(** An answer that is the empty object. *)
Lemma ask_ai_to_fix_missing_key_empty_object :
  (ask_ai_to_fix (libs := Fake.bookshop) "<shop>" 0%nat None
     (Fake.start [Ok "{}"] (Fake.selectors ".item" ".name" ".price"))).2
    = Raise (key_error "container").
Proof.
  apply (ask_ai_to_fix_missing_key (libs := Fake.bookshop) "<shop>" 0%nat None
           (Fake.start [Ok "{}"] (Fake.selectors ".item" ".name" ".price"))
           (JString ".item") (JString ".name") (JString ".price")
           [Ok "{}"] [] "{}"
           (ex_intro _ (Fake.selectors ".item" ".name" ".price")
              (conj eq_refl (conj eq_refl (conj eq_refl eq_refl))))
           eq_refl eq_refl [] "container" eq_refl eq_refl).
Defined.

(** The well-formed answer, set between no-break spaces: the new
    mapping is the second object of the store. *)
Lemma ask_ai_to_fix_accepts_good_answer :
  exists new_selectors,
    (ask_ai_to_fix (libs := Fake.libraries) "<shop>" 0%nat None
       (Fake.start [Ok (Fake.nbsp +:+ Fake.good_answer +:+ Fake.nbsp)]
          (Fake.selectors ".item" ".name" ".price"))).2
      = Ok new_selectors ∧ new_selectors ≠ 0%nat.
Proof.
  destruct (ask_ai_to_fix_accepts (libs := Fake.libraries) "<shop>" 0%nat None
              (Fake.start [Ok (Fake.nbsp +:+ Fake.good_answer +:+ Fake.nbsp)]
                 (Fake.selectors ".item" ".name" ".price"))
              (JString ".item") (JString ".name") (JString ".price")
              [Ok (Fake.nbsp +:+ Fake.good_answer +:+ Fake.nbsp)] []
              (Fake.nbsp +:+ Fake.good_answer +:+ Fake.nbsp)
              (ex_intro _ (Fake.selectors ".item" ".name" ".price")
                 (conj eq_refl (conj eq_refl (conj eq_refl eq_refl))))
              eq_refl eq_refl Fake.good_selectors
              (JString ".product") (JString ".name") (JString ".price")
              eq_refl eq_refl eq_refl eq_refl)
    as (new_selectors & Hret & Hnew & _).
  exists new_selectors. split; assumption.
Defined.

(** The model service has no answer left. *)
Lemma ask_ai_to_fix_unavailable_no_answer :
  (ask_ai_to_fix (libs := Fake.libraries) "<shop>" 0%nat None
     (Fake.start [] (Fake.selectors ".item" ".name" ".price"))).2
    = Raise (Exception "APIConnectionError" "Connection error.").
Proof.
  apply (ask_ai_to_fix_unavailable (libs := Fake.libraries) "<shop>" 0%nat None
           (Fake.start [] (Fake.selectors ".item" ".name" ".price"))
           (Exception "APIConnectionError" "Connection error.")).
  right. exists [], (JString ".item"), (JString ".name"), (JString ".price").
  split; [reflexivity|]. split; [|reflexivity].
  exists (Fake.selectors ".item" ".name" ".price"). repeat split; reflexivity.
Defined.

(** The shop: two records from three matched containers. *)
Lemma extract_products_from_containers_shop :
  (length [mkProduct "Tea" "3.50"; mkProduct "Mug" "7.00"]
     <= length [ Fake.product "Tea" "3.50";
                 Fake.Tag ".product" "" [Fake.Tag ".name" "Unpriced" []];
                 Fake.product "Mug" "7.00" ])%nat.
Proof.
  apply (extract_products_from_containers (libs := Fake.libraries) "<shop>"
           (JString ".product") (JString ".name") (JString ".price") (Fake.start [] ∅)
           [ Fake.product "Tea" "3.50";
             Fake.Tag ".product" "" [Fake.Tag ".name" "Unpriced" []];
             Fake.product "Mug" "7.00" ]
           [mkProduct "Tea" "3.50"; mkProduct "Mug" "7.00"] None);
    reflexivity.
Defined.

(** A negative budget. *)
Lemma run_agent_no_attempts_negative :
  (run_agent (libs := Fake.libraries) "https://shop.test/" 0%nat (-2)
     (Fake.start [] (Fake.selectors ".product" ".name" ".price"))).2 = Ok None.
Proof.
  apply (run_agent_no_attempts (libs := Fake.libraries) "https://shop.test/" 0%nat (-2)
           (Fake.selectors ".product" ".name" ".price")
           (Fake.start [] (Fake.selectors ".product" ".name" ".price"))).
  - lia.
  - reflexivity.
Defined.

(** A caller's mapping without a price selector. *)
Lemma run_agent_incomplete_rule_no_price :
  (run_agent (libs := Fake.libraries) "https://shop.test/" 0%nat 3
     (Fake.start [] (<["container" := JString ".product"]>
                       (<["name" := JString ".name"]> ∅)))).2
    = Raise (key_error "price").
Proof.
  apply (run_agent_incomplete_rule (libs := Fake.libraries) "https://shop.test/" 0%nat 3
           (<["container" := JString ".product"]> (<["name" := JString ".name"]> ∅))
           "price" "<shop>"
           (Fake.start [] (<["container" := JString ".product"]>
                             (<["name" := JString ".name"]> ∅)))).
  - lia.
  - reflexivity.
  - reflexivity.
  - reflexivity.
Defined.

(** The shop with the rule that works. *)
Lemma run_agent_first_attempt_shop :
  (run_agent (libs := Fake.libraries) "https://shop.test/" 0%nat 3
     (Fake.start [] (Fake.selectors ".product" ".name" ".price"))).2
    = Ok (Some [mkProduct "Tea" "3.50"; mkProduct "Mug" "7.00"]).
Proof.
  apply (run_agent_first_attempt (libs := Fake.libraries) "https://shop.test/" 0%nat 3
           (JString ".product") (JString ".name") (JString ".price") "<shop>"
           [mkProduct "Tea" "3.50"; mkProduct "Mug" "7.00"]
           (Fake.start [] (Fake.selectors ".product" ".name" ".price"))).
  - lia.
  - exists (Fake.selectors ".product" ".name" ".price"). repeat split; reflexivity.
  - reflexivity.
  - reflexivity.
Defined.

(** The shop with a rule that matches nothing and a fenced, well-formed
    answer of the model. *)
Lemma run_agent_repaired_shop :
  (run_agent (libs := Fake.libraries) "https://shop.test/" 0%nat 3
     (Fake.start [Ok (fence +:+ "json" +:+ PyStr.nl +:+ Fake.good_answer +:+ PyStr.nl +:+ fence)]
        (Fake.selectors ".item" ".name" ".price"))).2
    = Ok (Some [mkProduct "Tea" "3.50"; mkProduct "Mug" "7.00"]).
Proof.
  apply (run_agent_repaired (libs := Fake.libraries) "https://shop.test/" 0%nat 3
           (JString ".item") (JString ".name") (JString ".price") "<shop>"
           (Some "No containers found with that selector")
           [Ok (fence +:+ "json" +:+ PyStr.nl +:+ Fake.good_answer +:+ PyStr.nl +:+ fence)]
           [Ok (fence +:+ "json" +:+ PyStr.nl +:+ Fake.good_answer +:+ PyStr.nl +:+ fence)]
           []
           (fence +:+ "json" +:+ PyStr.nl +:+ Fake.good_answer +:+ PyStr.nl +:+ fence)
           Fake.good_selectors
           (JString ".product") (JString ".name") (JString ".price")
           [mkProduct "Tea" "3.50"; mkProduct "Mug" "7.00"]
           (Fake.start
              [Ok (fence +:+ "json" +:+ PyStr.nl +:+ Fake.good_answer +:+ PyStr.nl +:+ fence)]
              (Fake.selectors ".item" ".name" ".price"))).
  - lia.
  - exists (Fake.selectors ".item" ".name" ".price"). repeat split; reflexivity.
  - reflexivity.
  - reflexivity.
  - reflexivity.
  - reflexivity.
  - reflexivity.
  - reflexivity.
  - reflexivity.
  - reflexivity.
  - reflexivity.
Defined.

(** An API key that is set to the empty text counts as missing. *)
Lemma main_without_key_empty :
  (main (libs := Fake.libraries) (Some "") (mkState [] [] [])).2 = Ok tt.
Proof.
  apply (main_without_key (libs := Fake.libraries) (Some "") (mkState [] [] [])).
  reflexivity.
Defined.

(** The script on the book shop: the header and two numbered
    products. *)
Lemma main_reports_bookshop :
  (main (libs := Fake.bookshop) (Some "sk-test") (mkState [] [] [])).2 = Ok tt ∧
  report (Some [ mkProduct "A Light in the Attic" "51.77";
                 mkProduct "Tipping the Velvet" "53.74" ])
    = [ ""; "EXTRACTED PRODUCTS:"; PyStr.repeat "=" 50;
        "1. A Light in the Attic - 51.77"; "2. Tipping the Velvet - 53.74" ].
Proof.
  split; [|reflexivity].
  apply (main_reports (libs := Fake.bookshop) (Some "sk-test") (mkState [] [] [])
           (Some [ mkProduct "A Light in the Attic" "51.77";
                   mkProduct "Tipping the Velvet" "53.74" ])).
  - reflexivity.
  - reflexivity.
Defined.
